(** * http-redirecter: the lookup-and-cache layer and the redirect handler

    A shallow embedding of [function_app.py].  The module holds one
    process-wide dictionary [_cache], a resolver [_get_redirect_url] that
    puts the cache in front of an Azure table lookup, and the HTTP entry
    point [redirect_handler] that turns the resolved target into a 307
    response.

    Conventions of the embedding:
    - a Python [str] is a [string] whose characters are the code points
      0..255; the two standard-library routines whose answer depends on
      Unicode or IP-address tables ([unicodedata.normalize] and
      [ipaddress.ip_address]) are parameters of the model ([PyLib]);
    - [time.time()] reads the field [wall_clock] of the world; clock values
      are integers of one fixed unit, and [_CACHE_TTL] is given in that unit
      (rounding of binary floating point is not part of the model);
    - the expression [_get_table_client().get_entity(...)] is one call of
      the durable store, answered by the environment ([table_get_entity]);
      it includes whatever obtaining the client raises;
    - [func.HttpResponse(...)] is the library's constructor
      ([func.new_HttpResponse]): its header store raises [ValueError] on a
      header value that holds CR or LF;
    - effects are threaded through a state-and-exception monad [M] over the
      record [World]; every clock read, store call and log record is
      appended to [trace]. *)

From Stdlib Require Import ZArith Ascii String Bool List Lia.
From stdpp Require Import base option gmap strings list fin_maps.

Local Open Scope Z_scope.

(** ** Python string operations *)

Module PyStr.

Definition ord (c : ascii) : N := N_of_ascii c.

Definition in_range (lo hi : N) (c : ascii) : bool :=
  ((lo <=? ord c) && (ord c <=? hi))%N.

(** [c.isascii()] *)
Definition isascii_char (c : ascii) : bool := (ord c <? 128)%N.

(** [c.isascii() and c.isalpha()] *)
Definition is_ascii_alpha (c : ascii) : bool :=
  in_range 65 90 c || in_range 97 122 c.

Definition is_digit (c : ascii) : bool := in_range 48 57 c.

(** [c in '0123456789abcdefABCDEF'] *)
Definition is_hex_digit (c : ascii) : bool :=
  is_digit c || in_range 65 70 c || in_range 97 102 c.

(** [str.lower] on one code point below 256: [A-Z], and the Latin-1
    capitals U+00C0..U+00DE without the multiplication sign U+00D7. *)
Definition lower_char (c : ascii) : ascii :=
  if in_range 65 90 c
     || (in_range 192 222 c && negb (ord c =? 215)%N)
  then ascii_of_N (ord c + 32)
  else c.

Fixpoint lower (s : string) : string :=
  match s with
  | EmptyString => EmptyString
  | String c s' => String (lower_char c) (lower s')
  end.

Fixpoint isascii (s : string) : bool :=
  match s with
  | EmptyString => true
  | String c s' => isascii_char c && isascii s'
  end.

(** [all(p(c) for c in s)] *)
Fixpoint all_chars (p : ascii -> bool) (s : string) : bool :=
  match s with
  | EmptyString => true
  | String c s' => p c && all_chars p s'
  end.

(** [c in s] for a single character [c] *)
Fixpoint contains (c : ascii) (s : string) : bool :=
  match s with
  | EmptyString => false
  | String d s' => Ascii.eqb c d || contains c s'
  end.

(** [s.lstrip(chars)], the set [chars] given by its membership test *)
Fixpoint lstrip (p : ascii -> bool) (s : string) : string :=
  match s with
  | EmptyString => EmptyString
  | String c s' => if p c then lstrip p s' else s
  end.

(** [s.rstrip(chars)] *)
Fixpoint rstrip (p : ascii -> bool) (s : string) : string :=
  match s with
  | EmptyString => EmptyString
  | String c s' =>
      match rstrip p s' with
      | EmptyString => if p c then EmptyString else String c EmptyString
      | r => String c r
      end
  end.

(** [s.replace(c, "")] for a single character [c] *)
Fixpoint remove_char (c : ascii) (s : string) : string :=
  match s with
  | EmptyString => EmptyString
  | String d s' =>
      if Ascii.eqb c d then remove_char c s' else String d (remove_char c s')
  end.

(** [s.partition(c)]: [Some (before, after)] around the first [c], [None]
    when [c] does not occur (Python then returns [(s, '', '')]). *)
Fixpoint partition (c : ascii) (s : string) : option (string * string) :=
  match s with
  | EmptyString => None
  | String d s' =>
      if Ascii.eqb c d then Some (EmptyString, s')
      else match partition c s' with
           | Some (a, b) => Some (String d a, b)
           | None => None
           end
  end.

(** [s.rpartition(c)[2]]: the text after the last [c], all of [s] when
    [c] does not occur. *)
Fixpoint after_last (c : ascii) (s : string) : string :=
  match s with
  | EmptyString => EmptyString
  | String d s' =>
      if contains c s' then after_last c s'
      else if Ascii.eqb c d then s' else s
  end.

(** The longest prefix of characters outside [stop], and what follows. *)
Fixpoint break_at (stop : ascii -> bool) (s : string) : string * string :=
  match s with
  | EmptyString => (EmptyString, EmptyString)
  | String c s' =>
      if stop c then (EmptyString, s)
      else let '(a, b) := break_at stop s' in (String c a, b)
  end.

(** [s.split(c)[0]] *)
Definition split_first (c : ascii) (s : string) : string :=
  match partition c s with
  | Some (a, _) => a
  | None => s
  end.

(** [s.split(c, 1)]: one or two fields *)
Definition split_once (c : ascii) (s : string) : string * option string :=
  match partition c s with
  | Some (a, b) => (a, Some b)
  | None => (s, None)
  end.

(** [s.startswith(p)] *)
Definition startswith (p s : string) : bool := String.prefix p s.

(** Python truthiness of a [str] *)
Definition truthy (s : string) : bool :=
  match s with EmptyString => false | _ => true end.

End PyStr.

(** ** [urllib.parse.urlparse] (CPython 3.11)

    The handler reads only [scheme] and [netloc] of the result; the other
    fields are kept so that the record is the library's [ParseResult]. *)

Inductive ip_kind := IPv4Address | IPv6Address.

(** The standard-library routines the model takes as given. *)
Record PyLib := {
  (** [ipaddress.ip_address(s)]: the class of the parsed address, [None]
      when it raises [ValueError] *)
  ip_address : string -> option ip_kind;
  (** [unicodedata.normalize('NFKC', s)] *)
  nfkc_normalize : string -> string
}.

(** Exceptions that escape to the caller (the message text is not kept). *)
Inductive exn : Set := ValueError.

Inductive result (A : Type) :=
| Ok (a : A)
| Raise (e : exn).
Arguments Ok {A} a.
Arguments Raise {A} e.

Record ParseResult := {
  scheme : string;
  netloc : string;
  path : string;
  params : string;
  query : string;
  fragment : string
}.

Module UrlParse.
Import PyStr.

(** [scheme_chars]: letters, digits and [+-.] *)
Definition scheme_char (c : ascii) : bool :=
  is_ascii_alpha c || is_digit c
  || Ascii.eqb c "+" || Ascii.eqb c "-" || Ascii.eqb c ".".

(** [_WHATWG_C0_CONTROL_OR_SPACE]: code points 0..0x20 *)
Definition c0_control_or_space (c : ascii) : bool := (ord c <=? 32)%N.

(** [for b in _UNSAFE_URL_BYTES_TO_REMOVE: url = url.replace(b, "")] *)
Definition remove_unsafe (url : string) : string :=
  remove_char "010" (remove_char "013" (remove_char "009" url)).

Definition uses_params : list string :=
  [""; "ftp"; "hdl"; "prospero"; "http"; "imap"; "https"; "shttp"; "rtsp";
   "rtspu"; "sip"; "sips"; "mms"; "sftp"; "tel"].

(** [_splitnetloc(url, 2)] on the text after the leading [//] *)
Definition _splitnetloc (after_slashes : string) : string * string :=
  break_at (fun c => Ascii.eqb c "/" || Ascii.eqb c "?" || Ascii.eqb c "#")
           after_slashes.

(** [re.match(r"\Av[a-fA-F0-9]+\..+\Z", hostname)] *)
Definition ipvfuture_match (hostname : string) : bool :=
  match hostname with
  | String "v" rest =>
      let '(hex, tail) := break_at (fun c => negb (is_hex_digit c)) rest in
      match hex, tail with
      | String _ _, String "." (String c t) =>
          all_chars (fun d => negb (Ascii.eqb d "010")) (String c t)
      | _, _ => false
      end
  | _ => false
  end.

Section WithLib.
Variable lib : PyLib.

Definition _check_bracketed_host (hostname : string) : result unit :=
  if startswith "v" hostname then
    if ipvfuture_match hostname then Ok tt else Raise ValueError
  else
    match ip_address lib hostname with
    | None => Raise ValueError
    | Some IPv4Address => Raise ValueError
    | Some IPv6Address => Ok tt
    end.

Definition _check_bracketed_netloc (netloc : string) : result unit :=
  let hostname_and_port := after_last "@" netloc in
  match partition "[" hostname_and_port with
  | Some (before_bracket, bracketed) =>
      if truthy before_bracket then Raise ValueError
      else
        let '(hostname, port) :=
          match partition "]" bracketed with
          | Some (h, p) => (h, p)
          | None => (bracketed, EmptyString)
          end in
        if truthy port && negb (startswith ":" port) then Raise ValueError
        else _check_bracketed_host hostname
  | None =>
      _check_bracketed_host (split_first ":" hostname_and_port)
  end.

Definition _checknetloc (netloc : string) : result unit :=
  if negb (truthy netloc) || isascii netloc then Ok tt
  else
    let n := remove_char "?" (remove_char "#"
               (remove_char ":" (remove_char "@" netloc))) in
    let netloc2 := nfkc_normalize lib n in
    if String.eqb n netloc2 then Ok tt
    else if contains "/" netloc2 || contains "?" netloc2
            || contains "#" netloc2 || contains "@" netloc2
            || contains ":" netloc2
         then Raise ValueError
         else Ok tt.

(** [urlsplit(url)]; the result is (scheme, netloc, path, query, fragment) *)
Definition urlsplit (url : string)
  : result (string * string * string * string * string) :=
  let url := lstrip c0_control_or_space url in
  let url := remove_unsafe url in
  let '(scheme, url) :=
    match partition ":" url with
    | Some (String c0 pre, rest) =>
        if is_ascii_alpha c0 && all_chars scheme_char (String c0 pre)
        then (lower (String c0 pre), rest)
        else (EmptyString, url)
    | _ => (EmptyString, url)
    end in
  let split_rest (netloc url : string) :=
    let '(url, fragment) :=
      match partition "#" url with
      | Some (u, f) => (u, f)
      | None => (url, EmptyString)
      end in
    let '(url, query) :=
      match partition "?" url with
      | Some (u, q) => (u, q)
      | None => (url, EmptyString)
      end in
    match _checknetloc netloc with
    | Raise e => Raise e
    | Ok _ => Ok (scheme, netloc, url, query, fragment)
    end in
  match url with
  | String "/" (String "/" after_slashes) =>
      let '(netloc, url) := _splitnetloc after_slashes in
      let lb := contains "[" netloc in
      let rb := contains "]" netloc in
      if (lb && negb rb) || (rb && negb lb) then Raise ValueError
      else if lb && rb then
        match _check_bracketed_netloc netloc with
        | Raise e => Raise e
        | Ok _ => split_rest netloc url
        end
      else split_rest netloc url
  | _ => split_rest EmptyString url
  end.

(** [_splitparams(url)], called only when [';' in url] *)
Definition _splitparams (url : string) : string * string :=
  let split_at_semicolon (head tail : string) :=
    match partition ";" tail with
    | Some (a, b) => Some (head +:+ a, b)
    | None => None
    end in
  if contains "/" url then
    (* i = url.find(';', url.rfind('/')) *)
    let tail := String "/" (after_last "/" url) in
    let head := String.substring 0 (String.length url - String.length tail) url in
    match split_at_semicolon head tail with
    | Some r => r
    | None => (url, EmptyString)
    end
  else
    match split_at_semicolon EmptyString url with
    | Some r => r
    | None => (url, EmptyString)
    end.

Definition urlparse (url : string) : result ParseResult :=
  match urlsplit url with
  | Raise e => Raise e
  | Ok (scheme, netloc, url, query, fragment) =>
      let '(url, params) :=
        if bool_decide (scheme ∈ uses_params) && contains ";" url
        then _splitparams url
        else (url, EmptyString) in
      Ok {| scheme := scheme; netloc := netloc; path := url;
            params := params; query := query; fragment := fragment |}
  end.

End WithLib.
End UrlParse.

(** A library instance for closed examples: it knows the IPv6 literals
    [::1] and [2001:db8::1] and the dotted quad [127.0.0.1], rejects every
    other string, and leaves text unchanged under normalisation (which is
    what NFKC does on ASCII text). *)
Definition example_lib : PyLib := {|
  ip_address s :=
    if String.eqb s "::1" || String.eqb s "2001:db8::1" then Some IPv6Address
    else if String.eqb s "127.0.0.1" then Some IPv4Address
    else None;
  nfkc_normalize s := s
|}.

(** ** The process and its surroundings *)

(** What [_get_table_client().get_entity(partition_key=.., row_key=..)]
    does: it returns an entity (its string properties), raises
    [ResourceNotFoundError], or raises anything else, be it in the table
    service or while the client is obtained.  One evaluation of this
    expression is what the development counts as one store call. *)
Inductive lookup_result :=
| Entity (entity : gmap string string)
| ResourceNotFoundError
| OtherException.

Inductive log_level := INFO | WARNING | ERROR.

Inductive event :=
| EvClock (now : Z)                              (* time.time() *)
| EvGetEntity (partition_key row_key : string)   (* lines 38-41 run once *)
| EvLog (level : log_level) (exc_info : bool) (msg : string).

(** What the module reads but does not own. *)
Record Env := {
  pylib : PyLib;
  (** [int(os.getenv("CACHE_TTL_SECONDS", "300"))], in clock units *)
  _CACHE_TTL : Z;
  (** the table service, as it answers during the calls considered *)
  table_get_entity : string -> string -> lookup_result;
  (** wall-clock time that passes while the store is asked about a key *)
  lookup_duration : string -> Z
}.

(** The module-level dictionary [_cache: {hostname: (redirect_url, timestamp)}]
    (the first component may be [None]), the wall clock, and the record of
    what the process did. *)
Record World := {
  _cache : gmap string (option string * Z);
  wall_clock : Z;
  trace : list event
}.

Definition M (A : Type) : Type := World -> result A * World.

Definition ret {A} (a : A) : M A := fun w => (Ok a, w).

Definition bind {A B} (m : M A) (k : A -> M B) : M B :=
  fun w =>
    match m w with
    | (Ok a, w') => k a w'
    | (Raise e, w') => (Raise e, w')
    end.

Notation "x <- m ;; k" := (bind m (fun x => k))
  (at level 100, m at next level, right associativity).
Notation "m ;;; k" := (bind m (fun _ => k))
  (at level 100, right associativity).

(** A pure library call that may raise. *)
Definition lift {A} (r : result A) : M A := fun w => (r, w).

Definition emit (e : event) : M unit :=
  fun w => (Ok tt, {| _cache := _cache w; wall_clock := wall_clock w;
                      trace := trace w ++ [e] |}).

(** [time.time()] *)
Definition time_time : M Z :=
  fun w => (Ok (wall_clock w),
            {| _cache := _cache w; wall_clock := wall_clock w;
               trace := trace w ++ [EvClock (wall_clock w)] |}).

(** [_cache.get(hostname)] *)
Definition cache_get (hostname : string) : M (option (option string * Z)) :=
  fun w => (Ok (_cache w !! hostname), w).

(** [_cache[hostname] = entry] *)
Definition cache_set (hostname : string) (entry : option string * Z) : M unit :=
  fun w => (Ok tt, {| _cache := <[hostname := entry]> (_cache w);
                      wall_clock := wall_clock w; trace := trace w |}).

Definition logging_info (msg : string) : M unit := emit (EvLog INFO false msg).
Definition logging_warning (msg : string) : M unit := emit (EvLog WARNING false msg).
Definition logging_error (msg : string) : M unit := emit (EvLog ERROR false msg).
(** [logging.exception]: level ERROR with the traceback attached *)
Definition logging_exception (msg : string) : M unit := emit (EvLog ERROR true msg).

Module func.
(** [azure.functions.HttpRequest]; [headers] is keyed by lower-cased field
    names, as the library's case-insensitive header mapping stores them. *)
Record HttpRequest := {
  method : string;
  url : string;
  route_params : gmap string string;
  headers : gmap string string
}.

(** [azure.functions.HttpResponse] *)
Record HttpResponse := {
  status_code : Z;
  body : string;
  response_headers : gmap string string
}.

(** What the library's header store accepts as a value: a string without
    line feed and carriage return
    ([if "\n" in value or "\r" in value: raise ValueError]). *)
Definition header_value_ok (value : string) : bool :=
  negb (PyStr.contains "010" value || PyStr.contains "013" value).

(** The constructor call [func.HttpResponse(body, status_code=..,
    headers=..)]: the header mapping is copied into the header store, which
    raises [ValueError] on a value it does not accept. *)
Definition new_HttpResponse (body : string) (status_code : Z)
           (headers : gmap string string) : result HttpResponse :=
  if map_fold (fun _ value ok => ok && header_value_ok value) true headers
  then Ok {| status_code := status_code; body := body;
             response_headers := headers |}
  else Raise ValueError.
End func.

Section App.
Variable env : Env.

(** The store call of lines 38-41, with the time it takes. *)
Definition get_entity (partition_key row_key : string) : M lookup_result :=
  fun w => (Ok (table_get_entity env partition_key row_key),
            {| _cache := _cache w;
               wall_clock := wall_clock w + lookup_duration env partition_key;
               trace := trace w ++ [EvGetEntity partition_key row_key] |}).

Definition _get_redirect_url (hostname : string) : M (option string) :=
  now <- time_time ;;
  cached <- cache_get hostname ;;
  let lookup : M (option string) :=
    r <- get_entity hostname "default" ;;
    let cache_and_return (redirect_url : option string) : M (option string) :=
      (* Cache both hits and misses *)
      cache_set hostname (redirect_url, now) ;;;
      ret redirect_url in
    match r with
    | Entity entity => cache_and_return (entity !! "RedirectUrl")
    | ResourceNotFoundError =>
        logging_warning ("No redirect entry for host " +:+ hostname) ;;;
        cache_and_return None
    | OtherException =>
        logging_exception ("Failed to look up redirect for " +:+ hostname) ;;;
        ret None  (* Don't cache transient errors *)
    end in
  match cached with
  | Some (cached_0, cached_1) =>
      if now - cached_1 <? _CACHE_TTL env then ret cached_0 else lookup
  | None => lookup
  end.

Definition not_found_message : string :=
  "Configuration error: redirect url not found.".
Definition invalid_target_message : string :=
  "Configuration error: invalid redirect target.".

Definition error_response (msg : string) : func.HttpResponse :=
  {| func.status_code := 500; func.body := msg;
     func.response_headers := ∅ |}.

(** Line 64: [urlparse(req.url).netloc.lower().split(":")[0]] *)
Definition request_hostname (req : func.HttpRequest) : result string :=
  match UrlParse.urlparse (pylib env) (func.url req) with
  | Ok parsed => Ok (PyStr.split_first ":" (PyStr.lower (netloc parsed)))
  | Raise e => Raise e
  end.

Definition redirect_handler (req : func.HttpRequest) : M func.HttpResponse :=
  hostname <- lift (request_hostname req) ;;
  redirect_url <- _get_redirect_url hostname ;;
  match redirect_url with
  | None | Some EmptyString =>
      lift (func.new_HttpResponse not_found_message 500 ∅)
  | Some redirect_url =>
      (* Ensure redirect target is a valid URL *)
      parsed <- lift (UrlParse.urlparse (pylib env) redirect_url) ;;
      normalized <-
        (if PyStr.truthy (scheme parsed) then ret (redirect_url, parsed)
         else
           let redirect_url := "https://" +:+ redirect_url in
           parsed <- lift (UrlParse.urlparse (pylib env) redirect_url) ;;
           ret (redirect_url, parsed)) ;;
      let '(redirect_url, parsed) := normalized in
      if negb (PyStr.truthy (netloc parsed)) then
        logging_error ("Invalid redirect URL for host " +:+ hostname
                       +:+ ": " +:+ redirect_url) ;;;
        lift (func.new_HttpResponse invalid_target_message 500 ∅)
      else
        (* Preserve path and query string *)
        let path := default "" (func.route_params req !! "route") in
        let query :=
          match PyStr.split_once "?" (func.url req) with
          | (_, Some q) => q
          | (_, None) => ""
          end in
        (* Build new URL, avoiding double slash on root path *)
        let new_url := PyStr.rstrip (Ascii.eqb "/") redirect_url in
        let new_url :=
          if PyStr.truthy path then new_url +:+ "/" +:+ path else new_url in
        let new_url :=
          if PyStr.truthy query then new_url +:+ "?" +:+ query else new_url in
        let user_agent :=
          default "Unknown" (func.headers req !! PyStr.lower "User-Agent") in
        logging_info ("Redirecting " +:+ func.method req +:+ " "
                      +:+ func.url req +:+ " -> " +:+ new_url
                      +:+ " (UA: " +:+ user_agent +:+ ")") ;;;
        lift (func.new_HttpResponse "" 307 {[ "Location" := new_url ]})
  end.

End App.

(** Number of store calls recorded in a trace. *)
Fixpoint store_calls (t : list event) : nat :=
  match t with
  | [] => 0
  | EvGetEntity _ _ :: t' => S (store_calls t')
  | _ :: t' => store_calls t'
  end.

(** Number of clock reads recorded in a trace. *)
Fixpoint clock_reads (t : list event) : nat :=
  match t with
  | [] => 0
  | EvClock _ :: t' => S (clock_reads t')
  | _ :: t' => clock_reads t'
  end.

(** ** Vocabulary of the specification *)

(** An entry is fresh iff [now - recordedAt < TTL]. *)
Definition fresh (env : Env) (now : Z) (entry : option string * Z) : Prop :=
  now - snd entry < _CACHE_TTL env.

(** No cache entry for [h], or a stale one. *)
Definition needs_lookup (env : Env) (w : World) (h : string) : Prop :=
  _cache w !! h = None
  \/ exists v recordedAt,
       _cache w !! h = Some (v, recordedAt)
       /\ _CACHE_TTL env <= wall_clock w - recordedAt.

(** The value a completed store call stands for: the record's
    [RedirectUrl] field, or the explicit negative. *)
Definition lookup_value (r : lookup_result) : option string :=
  match r with
  | Entity entity => entity !! "RedirectUrl"
  | ResourceNotFoundError | OtherException => None
  end.

(** What the resolver logs after a store call. *)
Definition lookup_log (h : string) (r : lookup_result) : list event :=
  match r with
  | Entity _ => []
  | ResourceNotFoundError =>
      [EvLog WARNING false ("No redirect entry for host " +:+ h)]
  | OtherException =>
      [EvLog ERROR true ("Failed to look up redirect for " +:+ h)]
  end.

(** The world after the slow path of the resolver. *)
Definition after_lookup (env : Env) (w : World) (h : string) : World :=
  let r := table_get_entity env h "default" in
  {| _cache :=
       match r with
       | OtherException => _cache w
       | _ => <[h := (lookup_value r, wall_clock w)]> (_cache w)
       end;
     wall_clock := wall_clock w + lookup_duration env h;
     trace := trace w ++ EvClock (wall_clock w) :: EvGetEntity h "default"
                      :: lookup_log h r |}.

(** ** Vocabulary of the redirect builder *)

(** Lines 74-77: the target as the handler uses it, with its parse: the
    stored value itself when it has a scheme, else [https://] + value. *)
Definition normalize_target (lib : PyLib) (target : string)
  : result (string * ParseResult) :=
  match UrlParse.urlparse lib target with
  | Raise e => Raise e
  | Ok parsed =>
      if PyStr.truthy (scheme parsed) then Ok (target, parsed)
      else
        match UrlParse.urlparse lib ("https://" +:+ target) with
        | Raise e => Raise e
        | Ok parsed' => Ok ("https://" +:+ target, parsed')
        end
  end.

(** Line 86: [req.route_params.get('route', '')] *)
Definition request_path (req : func.HttpRequest) : string :=
  default "" (func.route_params req !! "route").

(** Line 87: [req.url.split('?', 1)[1] if '?' in req.url else ''] *)
Definition request_query (req : func.HttpRequest) : string :=
  match PyStr.split_once "?" (func.url req) with
  | (_, Some q) => q
  | (_, None) => ""
  end.

(** The composition rule in the words of §4.3: strip trailing slashes,
    then append [/] + path if the path is non-empty and [?] + query if the
    query is non-empty. *)
Definition spec_location (url path query : string) : string :=
  PyStr.rstrip (Ascii.eqb "/") url
  +:+ (if PyStr.truthy path then "/" +:+ path else "")
  +:+ (if PyStr.truthy query then "?" +:+ query else "").

Definition redirect_response (location : string) : func.HttpResponse :=
  {| func.status_code := 307; func.body := "";
     func.response_headers := {[ "Location" := location ]} |}.

Definition log_event (e : event) (w : World) : World :=
  {| _cache := _cache w; wall_clock := wall_clock w; trace := trace w ++ [e] |}.

(** ** A small deployment for closed examples

    Two configured hosts, one record whose [RedirectUrl] is the empty string,
    one record without the field, one record holding a bare path, and one
    partition on which the table service fails.  TTL 300, a store call
    takes 2 clock units. *)
Definition demo_table (partition_key row_key : string) : lookup_result :=
  if negb (String.eqb row_key "default") then ResourceNotFoundError
  else if String.eqb partition_key "old.example.com"
  then Entity {[ "RedirectUrl" := "example.org" ]}
  else if String.eqb partition_key "empty.example.com"
  then Entity {[ "RedirectUrl" := "" ]}
  else if String.eqb partition_key "nofield.example.com"
  then Entity {[ "Owner" := "ops" ]}
  else if String.eqb partition_key "path.example.com"
  then Entity {[ "RedirectUrl" := "/landing" ]}
  else if String.eqb partition_key "slash.example.com"
  then Entity {[ "RedirectUrl" := "http://new.example.net/base//" ]}
  else if String.eqb partition_key "broken.example.com"
  then OtherException
  else ResourceNotFoundError.

Definition demo_env : Env := {|
  pylib := example_lib;
  _CACHE_TTL := 300;
  table_get_entity := demo_table;
  lookup_duration _ := 2
|}.

(** A process that has just started at clock value 1000. *)
Definition cold_world : World :=
  {| _cache := ∅; wall_clock := 1000; trace := [] |}.

(** A process at clock value 1000 holding entries recorded at 900 (fresh)
    and at 100 (stale). *)
Definition warm_world : World :=
  {| _cache :=
       {[ "old.example.com" := (Some "example.org", 900);
          "gone.example.com" := (None, 900);
          "broken.example.com" := (Some "legacy.example.net", 100);
          "moved.example.com" := (Some "legacy.example.net", 100) ]};
     wall_clock := 1000;
     trace := [] |}.

(** The same deployment with an empty table. *)
Definition bare_env : Env := {|
  pylib := example_lib;
  _CACHE_TTL := 300;
  table_get_entity := fun _ _ => ResourceNotFoundError;
  lookup_duration := fun _ => 2
|}.

(** A GET request for [url] whose catch-all route parameter is [route]. *)
Definition get_request (url : string) (route : option string) : func.HttpRequest :=
  {| func.method := "GET"; func.url := url;
     func.route_params :=
       match route with Some r => {[ "route" := r ]} | None => ∅ end;
     func.headers := {[ "user-agent" := "curl/8.5.0" ]} |}.

(** ** The table client (lines 17-28) and the lookup expression

    [_table_client] is the module-level variable of line 17.  The
    constructor call [TableClient(endpoint=.., table_name=..,
    credential=DefaultAzureCredential())] either returns a client, kept
    here as the two strings it was built from, or raises. *)

Record TableClient := {
  endpoint : string;
  table_name : string
}.

Inductive setup_exn :=
| KeyError (key : string)     (* os.environ[key] on a missing key *)
| ConstructorError.           (* the constructor call raised *)

Record Platform := {
  (** [os.environ] *)
  environ : gmap string string;
  (** whether the constructor call of lines 23-27 returns *)
  constructor_returns : string -> string -> bool;
  (** [client.get_entity(partition_key=.., row_key=..)] *)
  client_get_entity : TableClient -> string -> string -> lookup_result
}.

(** [os.getenv(key, default)] *)
Definition getenv (p : Platform) (key default_value : string) : string :=
  default default_value (environ p !! key).

Definition _get_table_client (p : Platform) (_table_client : option TableClient)
  : (TableClient + setup_exn) * option TableClient :=
  match _table_client with
  | None =>
      match environ p !! "AzureWebJobsStorage__tableServiceUri" with
      | None => (inr (KeyError "AzureWebJobsStorage__tableServiceUri"), None)
      | Some endpoint =>
          let table_name := getenv p "REDIRECT_TABLE_NAME" "redirects" in
          if constructor_returns p endpoint table_name then
            let client := {| endpoint := endpoint; table_name := table_name |} in
            (inl client, Some client)
          else (inr ConstructorError, None)
      end
  | Some client => (inl client, Some client)
  end.

(** Lines 38-41 as the [try] statement sees them: the answer of
    [get_entity], with every exception raised on the way to the client taken
    by the [except Exception] clause. *)
Definition lookup_expression (p : Platform) (_table_client : option TableClient)
           (partition_key row_key : string)
  : lookup_result * option TableClient :=
  match _get_table_client p _table_client with
  | (inl client, st) => (client_get_entity p client partition_key row_key, st)
  | (inr _, st) => (OtherException, st)
  end.

(** The environment of the resolver in a process whose client variable is
    [_table_client]. *)
Definition process_env (lib : PyLib) (ttl : Z) (duration : string -> Z)
           (p : Platform) (_table_client : option TableClient) : Env :=
  {| pylib := lib;
     _CACHE_TTL := ttl;
     table_get_entity := fun partition_key row_key =>
       fst (lookup_expression p _table_client partition_key row_key);
     lookup_duration := duration |}.

(** A platform with the endpoint set and one record in the table
    [redirects], and the same platform without any setting. *)
Definition demo_platform : Platform := {|
  environ := {[ "AzureWebJobsStorage__tableServiceUri" :=
                  "https://acct.table.core.windows.net" ]};
  constructor_returns := fun _ _ => true;
  client_get_entity := fun client partition_key row_key =>
    if String.eqb (table_name client) "redirects"
       && String.eqb partition_key "old.example.com"
       && String.eqb row_key "default"
    then Entity {[ "RedirectUrl" := "example.org" ]}
    else ResourceNotFoundError
|}.

Definition unconfigured_platform : Platform := {|
  environ := ∅;
  constructor_returns := fun _ _ => true;
  client_get_entity := client_get_entity demo_platform
|}.

(** Variants of the small deployment: the failing partition has
    recovered; a store call takes as long as the TTL; caching is switched
    off by a TTL of zero. *)
Definition recovered_env : Env := {|
  pylib := example_lib;
  _CACHE_TTL := 300;
  table_get_entity := fun partition_key row_key =>
    if String.eqb partition_key "broken.example.com"
    then Entity {[ "RedirectUrl" := "https://back.example.net" ]}
    else demo_table partition_key row_key;
  lookup_duration := fun _ => 2
|}.

Definition slow_env : Env := {|
  pylib := example_lib;
  _CACHE_TTL := 300;
  table_get_entity := demo_table;
  lookup_duration := fun _ => 300
|}.

Definition uncached_env : Env := {|
  pylib := example_lib;
  _CACHE_TTL := 0;
  table_get_entity := demo_table;
  lookup_duration := fun _ => 2
|}.

(** The world [w] at a later clock value. *)
Definition at_clock (now : Z) (w : World) : World :=
  {| _cache := _cache w; wall_clock := now; trace := trace w |}.

(** The small deployment with two more records: a target that is a lone
    opening bracket, and a target written as host and port without scheme. *)
Definition edge_env : Env := {|
  pylib := example_lib;
  _CACHE_TTL := 300;
  table_get_entity := fun partition_key row_key =>
    if String.eqb partition_key "bracket.example.com"
    then Entity {[ "RedirectUrl" := "[" ]}
    else if String.eqb partition_key "hostport.example.com"
    then Entity {[ "RedirectUrl" := "example.org:8443" ]}
    else demo_table partition_key row_key;
  lookup_duration := fun _ => 2
|}.

(** [s[-1]], if any *)
Fixpoint last_char (s : string) : option ascii :=
  match s with
  | EmptyString => None
  | String c EmptyString => Some c
  | String _ s' => last_char s'
  end.

(** ** [urlsplit] in steps

    The same computation as [UrlParse.urlsplit], cut into its steps so that
    each can be reasoned about: the scheme test of lines 503-509 of
    [urllib/parse.py], the test [url[:2] == '//'], and the splitting of
    fragment and query with the final netloc check. *)
Definition split_scheme (url : string) : string * string :=
  match PyStr.partition ":" url with
  | Some (String c0 pre, rest) =>
      if PyStr.is_ascii_alpha c0
         && PyStr.all_chars UrlParse.scheme_char (String c0 pre)
      then (PyStr.lower (String c0 pre), rest)
      else (EmptyString, url)
  | _ => (EmptyString, url)
  end.

Definition after_slashes (url : string) : option string :=
  match url with
  | String "/" (String "/" rest) => Some rest
  | _ => None
  end.

Definition split_tail (lib : PyLib) (scheme netloc url : string)
  : result (string * string * string * string * string) :=
  let '(url, fragment) :=
    match PyStr.partition "#" url with
    | Some (u, f) => (u, f)
    | None => (url, EmptyString)
    end in
  let '(url, query) :=
    match PyStr.partition "?" url with
    | Some (u, q) => (u, q)
    | None => (url, EmptyString)
    end in
  match UrlParse._checknetloc lib netloc with
  | Raise e => Raise e
  | Ok _ => Ok (scheme, netloc, url, query, fragment)
  end.

Definition urlsplit_steps (lib : PyLib) (url : string)
  : result (string * string * string * string * string) :=
  let '(scheme, url) :=
    split_scheme
      (UrlParse.remove_unsafe (PyStr.lstrip UrlParse.c0_control_or_space url)) in
  match after_slashes url with
  | Some rest =>
      let '(netloc, url) := UrlParse._splitnetloc rest in
      let lb := PyStr.contains "[" netloc in
      let rb := PyStr.contains "]" netloc in
      if (lb && negb rb) || (rb && negb lb) then Raise ValueError
      else if lb && rb then
        match UrlParse._check_bracketed_netloc lib netloc with
        | Raise e => Raise e
        | Ok _ => split_tail lib scheme netloc url
        end
      else split_tail lib scheme netloc url
  | None => split_tail lib scheme EmptyString url
  end.

(** Tab, carriage return and line feed: what [urlsplit] deletes from a URL. *)
Definition unsafe_char (c : ascii) : bool :=
  Ascii.eqb c "009" || Ascii.eqb c "010" || Ascii.eqb c "013".

(** A character that cannot make [urlsplit] raise: ASCII and no bracket. *)
Definition plain_char (c : ascii) : bool :=
  PyStr.isascii_char c && negb (Ascii.eqb c "[") && negb (Ascii.eqb c "]").

(** The delimiters that end the authority. *)
Definition authority_end (c : ascii) : bool :=
  Ascii.eqb c "/" || Ascii.eqb c "?" || Ascii.eqb c "#".

(** ** The URL parser on examples *)

Example urlparse_full :
  UrlParse.urlparse example_lib "HTTPS://Old.Example.com:8443/a/b;p?x=1#frag"
  = Ok {| scheme := "https"; netloc := "Old.Example.com:8443"; path := "/a/b";
          params := "p"; query := "x=1"; fragment := "frag" |}.
Proof. vm_compute. reflexivity. Qed.

Example urlparse_no_scheme :
  UrlParse.urlparse example_lib "example.org"
  = Ok {| scheme := ""; netloc := ""; path := "example.org";
          params := ""; query := ""; fragment := "" |}.
Proof. vm_compute. reflexivity. Qed.

Example urlparse_host_port_without_scheme :
  UrlParse.urlparse example_lib "localhost:8080"
  = Ok {| scheme := "localhost"; netloc := ""; path := "8080";
          params := ""; query := ""; fragment := "" |}.
Proof. vm_compute. reflexivity. Qed.

Example urlparse_ipv6 :
  UrlParse.urlparse example_lib "http://[::1]:7071/api"
  = Ok {| scheme := "http"; netloc := "[::1]:7071"; path := "/api";
          params := ""; query := ""; fragment := "" |}.
Proof. vm_compute. reflexivity. Qed.

Example urlparse_unbalanced_bracket :
  UrlParse.urlparse example_lib "https://[" = Raise ValueError.
Proof. vm_compute. reflexivity. Qed.

(** ** Facts about traces *)

Lemma store_calls_app (t1 t2 : list event) :
  store_calls (t1 ++ t2) = (store_calls t1 + store_calls t2)%nat.
Proof.
  induction t1 as [|e t1 IH]; simpl; [reflexivity|].
  destruct e; simpl; rewrite IH; reflexivity.
Qed.

Lemma clock_reads_app (t1 t2 : list event) :
  clock_reads (t1 ++ t2) = (clock_reads t1 + clock_reads t2)%nat.
Proof.
  induction t1 as [|e t1 IH]; simpl; [reflexivity|].
  destruct e; simpl; rewrite IH; reflexivity.
Qed.

Lemma store_calls_lookup_log h r : store_calls (lookup_log h r) = 0%nat.
Proof. destruct r; reflexivity. Qed.

Lemma clock_reads_lookup_log h r : clock_reads (lookup_log h r) = 0%nat.
Proof. destruct r; reflexivity. Qed.

(** ** The resolver, case by case *)

Section Resolver.
Variable env : Env.

(** Fresh entry: the cached value, one clock read, nothing else. *)
Lemma resolve_fresh (w : World) (h : string) (v : option string) (recordedAt : Z) :
  _cache w !! h = Some (v, recordedAt) ->
  fresh env (wall_clock w) (v, recordedAt) ->
  _get_redirect_url env h w
  = (Ok v, {| _cache := _cache w; wall_clock := wall_clock w;
              trace := trace w ++ [EvClock (wall_clock w)] |}).
Proof.
  intros Hc Hf. unfold fresh in Hf. simpl in Hf.
  unfold _get_redirect_url, bind, time_time, cache_get. simpl.
  rewrite Hc.
  destruct (Z.ltb_spec (wall_clock w - recordedAt) (_CACHE_TTL env)); [|lia].
  reflexivity.
Qed.

(** Absent or stale entry: one store call decides the result. *)
Lemma resolve_lookup (w : World) (h : string) :
  needs_lookup env w h ->
  _get_redirect_url env h w
  = (Ok (lookup_value (table_get_entity env h "default")), after_lookup env w h).
Proof.
  intros Hn. unfold needs_lookup in Hn.
  unfold _get_redirect_url, after_lookup, bind, time_time, cache_get,
    get_entity, cache_set, logging_warning, logging_exception, emit, ret.
  simpl.
  assert (Hslow :
    match _cache w !! h with
    | Some (_, ts) => (wall_clock w - ts <? _CACHE_TTL env) = false
    | None => True
    end).
  { destruct Hn as [Hc|(v & ts & Hc & Hge)]; rewrite Hc; [exact I|].
    apply Z.ltb_ge. exact Hge. }
  destruct (_cache w !! h) as [[v ts]|]; [rewrite Hslow|];
    destruct (table_get_entity env h "default"); simpl;
    rewrite <- ?app_assoc; reflexivity.
Qed.

(** The resolver never raises. *)
Lemma resolve_total (w : World) (h : string) :
  exists v w', _get_redirect_url env h w = (Ok v, w').
Proof.
  destruct (_cache w !! h) as [[v ts]|] eqn:Hc.
  - destruct (Z.lt_ge_cases (wall_clock w - ts) (_CACHE_TTL env)) as [Hlt|Hge].
    + eexists _, _. apply (resolve_fresh w h v ts Hc Hlt).
    + eexists _, _. apply resolve_lookup. right. eauto.
  - eexists _, _. apply resolve_lookup. left. exact Hc.
Qed.

(** Every resolution is one of the two. *)
Lemma resolve_cases (w : World) (h : string) :
  (exists v recordedAt,
      _cache w !! h = Some (v, recordedAt)
      /\ fresh env (wall_clock w) (v, recordedAt)
      /\ _get_redirect_url env h w
         = (Ok v, {| _cache := _cache w; wall_clock := wall_clock w;
                     trace := trace w ++ [EvClock (wall_clock w)] |}))
  \/ (needs_lookup env w h
      /\ _get_redirect_url env h w
         = (Ok (lookup_value (table_get_entity env h "default")),
            after_lookup env w h)).
Proof.
  destruct (_cache w !! h) as [[v ts]|] eqn:Hc.
  - destruct (Z.lt_ge_cases (wall_clock w - ts) (_CACHE_TTL env)) as [Hlt|Hge].
    + left. exists v, ts. split; [reflexivity|]. split; [exact Hlt|].
      apply (resolve_fresh w h v ts Hc Hlt).
    + right. assert (needs_lookup env w h) as Hn by (right; eauto).
      split; [exact Hn|]. apply resolve_lookup, Hn.
  - right. assert (needs_lookup env w h) as Hn by (left; exact Hc).
    split; [exact Hn|]. apply resolve_lookup, Hn.
Qed.

End Resolver.

(** ** The resolver's cache policy *)

(** C1. When the store call for [h] fails with anything but the not-found
    signal, the resolver writes nothing: the cache after the call is the
    cache before it, and so is the entry for [h] (a stale entry stays). *)
Theorem transient_error_leaves_cache (env : Env) (w : World) (h : string) :
  table_get_entity env h "default" = OtherException ->
  _cache (snd (_get_redirect_url env h w)) = _cache w
  /\ _cache (snd (_get_redirect_url env h w)) !! h = _cache w !! h.
Proof.
  intros Herr.
  assert (_cache (snd (_get_redirect_url env h w)) = _cache w) as Heq.
  { destruct (resolve_cases env w h) as [(v & ts & _ & _ & ->)|[_ ->]].
    - reflexivity.
    - unfold after_lookup. simpl. rewrite Herr. reflexivity. }
  split; [exact Heq|]. rewrite Heq. reflexivity.
Qed.

Lemma transient_error_leaves_cache_witness :
  needs_lookup demo_env warm_world "broken.example.com"
  /\ _cache (snd (_get_redirect_url demo_env "broken.example.com" warm_world))
     = _cache warm_world
  /\ _cache (snd (_get_redirect_url demo_env "broken.example.com" warm_world))
       !! "broken.example.com"
     = Some (Some "legacy.example.net", 100).
Proof.
  split.
  - right. exists (Some "legacy.example.net"), 100.
    split; [reflexivity|]. vm_compute. discriminate.
  - destruct (transient_error_leaves_cache demo_env warm_world "broken.example.com")
      as [H1 H2]; [reflexivity|].
    split; [exact H1|]. rewrite H2. reflexivity.
Defined.

(** C4. With a fresh entry for [h] ([now - recordedAt < TTL]) the resolver
    returns the cached value, positive or negative, and makes no store
    call: the only thing it does is read the clock. *)
Theorem fresh_entry_served_without_store_call
    (env : Env) (w : World) (h : string) (v : option string) (recordedAt : Z) :
  _cache w !! h = Some (v, recordedAt) ->
  wall_clock w - recordedAt < _CACHE_TTL env ->
  fst (_get_redirect_url env h w) = Ok v
  /\ trace (snd (_get_redirect_url env h w)) = trace w ++ [EvClock (wall_clock w)]
  /\ store_calls (trace (snd (_get_redirect_url env h w))) = store_calls (trace w)
  /\ _cache (snd (_get_redirect_url env h w)) = _cache w.
Proof.
  intros Hc Hf. rewrite (resolve_fresh env w h v recordedAt Hc Hf). simpl.
  rewrite store_calls_app. simpl. repeat split; lia.
Qed.

Lemma fresh_entry_served_without_store_call_witness :
  (fst (_get_redirect_url demo_env "old.example.com" warm_world)
     = Ok (Some "example.org")
   /\ store_calls (trace (snd (_get_redirect_url demo_env "old.example.com" warm_world)))
      = 0%nat)
  /\ (fst (_get_redirect_url demo_env "gone.example.com" warm_world) = Ok None
      /\ store_calls (trace (snd (_get_redirect_url demo_env "gone.example.com" warm_world)))
         = 0%nat).
Proof.
  split.
  - destruct (fresh_entry_served_without_store_call demo_env warm_world
                "old.example.com" (Some "example.org") 900)
      as (H1 & _ & H3 & _); [reflexivity | reflexivity |].
    split; [exact H1 | exact H3].
  - destruct (fresh_entry_served_without_store_call demo_env warm_world
                "gone.example.com" None 900)
      as (H1 & _ & H3 & _); [reflexivity | reflexivity |].
    split; [exact H1 | exact H3].
Defined.

(** C5. With no entry for [h], or a stale one ([now - recordedAt >= TTL]),
    one resolution makes exactly one store call (there is no retry), and
    its result is what that call answered, not the stale value. *)
Theorem absent_or_stale_entry_one_store_call (env : Env) (w : World) (h : string) :
  needs_lookup env w h ->
  store_calls (trace (snd (_get_redirect_url env h w))) = S (store_calls (trace w))
  /\ trace (snd (_get_redirect_url env h w))
     = trace w ++ EvClock (wall_clock w) :: EvGetEntity h "default"
               :: lookup_log h (table_get_entity env h "default")
  /\ fst (_get_redirect_url env h w)
     = Ok (lookup_value (table_get_entity env h "default")).
Proof.
  intros Hn. rewrite (resolve_lookup env w h Hn). unfold after_lookup. simpl.
  rewrite store_calls_app. simpl. rewrite store_calls_lookup_log.
  repeat split; lia.
Qed.

Lemma absent_or_stale_entry_one_store_call_witness :
  _cache warm_world !! "moved.example.com" = Some (Some "legacy.example.net", 100)
  /\ store_calls (trace (snd (_get_redirect_url demo_env "moved.example.com" warm_world)))
     = 1%nat
  /\ fst (_get_redirect_url demo_env "moved.example.com" warm_world) = Ok None.
Proof.
  split; [reflexivity|].
  destruct (absent_or_stale_entry_one_store_call demo_env warm_world "moved.example.com")
    as (H1 & _ & H3).
  - right. exists (Some "legacy.example.net"), 100.
    split; [reflexivity|]. vm_compute. discriminate.
  - split; [exact H1 | exact H3].
Defined.

(** C6. A store call that ends with a record or with the not-found signal
    is followed at once by a write of the entry for [h]: the record's
    [RedirectUrl] value (or the explicit negative), stamped with the clock
    reading of this resolution, replacing whatever was there; no other
    entry changes. *)
Theorem completed_lookup_writes_entry (env : Env) (w : World) (h : string) :
  needs_lookup env w h ->
  table_get_entity env h "default" <> OtherException ->
  _cache (snd (_get_redirect_url env h w))
  = <[h := (lookup_value (table_get_entity env h "default"), wall_clock w)]>
      (_cache w)
  /\ _cache (snd (_get_redirect_url env h w)) !! h
     = Some (lookup_value (table_get_entity env h "default"), wall_clock w)
  /\ (0 < _CACHE_TTL env ->
      fresh env (wall_clock w)
        (lookup_value (table_get_entity env h "default"), wall_clock w)).
Proof.
  intros Hn Hok. rewrite (resolve_lookup env w h Hn). unfold after_lookup. simpl.
  assert (match table_get_entity env h "default" with
          | OtherException => _cache w
          | _ => <[h := (lookup_value (table_get_entity env h "default"),
                         wall_clock w)]> (_cache w)
          end
          = <[h := (lookup_value (table_get_entity env h "default"),
                    wall_clock w)]> (_cache w)) as ->.
  { destruct (table_get_entity env h "default"); congruence. }
  split; [reflexivity|]. split.
  - apply lookup_insert_eq.
  - intros Hpos. unfold fresh. simpl. lia.
Qed.

Lemma completed_lookup_writes_entry_witness :
  _cache (snd (_get_redirect_url demo_env "moved.example.com" warm_world))
    !! "moved.example.com" = Some (None, 1000)
  /\ _cache (snd (_get_redirect_url demo_env "old.example.com" cold_world))
       !! "old.example.com" = Some (Some "example.org", 1000).
Proof.
  split.
  - destruct (completed_lookup_writes_entry demo_env warm_world "moved.example.com")
      as (_ & H2 & _).
    + right. exists (Some "legacy.example.net"), 100.
      split; [reflexivity|]. vm_compute. discriminate.
    + vm_compute. discriminate.
    + exact H2.
  - destruct (completed_lookup_writes_entry demo_env cold_world "old.example.com")
      as (_ & H2 & _).
    + left. reflexivity.
    + vm_compute. discriminate.
    + exact H2.
Defined.

(** C10. When a resolution asks the store and then writes the cache, the
    stored [recordedAt] is the clock value read at the start of the
    resolution, before the store call.  The clock is read once, so the
    freshness test and the write use the same reading; the wall clock at
    the moment of the write is later by the duration of the store call. *)
Theorem recorded_at_is_clock_at_start (env : Env) (w : World) (h : string) :
  needs_lookup env w h ->
  table_get_entity env h "default" <> OtherException ->
  (exists v, _cache (snd (_get_redirect_url env h w)) !! h = Some (v, wall_clock w))
  /\ clock_reads (trace (snd (_get_redirect_url env h w)))
     = S (clock_reads (trace w))
  /\ (exists log,
        trace (snd (_get_redirect_url env h w))
        = trace w ++ EvClock (wall_clock w) :: EvGetEntity h "default" :: log
        /\ clock_reads log = 0%nat)
  /\ wall_clock (snd (_get_redirect_url env h w))
     = wall_clock w + lookup_duration env h.
Proof.
  intros Hn Hok. rewrite (resolve_lookup env w h Hn). unfold after_lookup. simpl.
  split; [|split; [|split]].
  - exists (lookup_value (table_get_entity env h "default")).
    destruct (table_get_entity env h "default"); try congruence;
      apply lookup_insert_eq.
  - rewrite clock_reads_app. simpl. rewrite clock_reads_lookup_log. lia.
  - eexists. split; [reflexivity|]. apply clock_reads_lookup_log.
  - reflexivity.
Qed.

Lemma recorded_at_is_clock_at_start_witness :
  _cache (snd (_get_redirect_url demo_env "old.example.com" cold_world))
    !! "old.example.com" = Some (Some "example.org", 1000)
  /\ wall_clock (snd (_get_redirect_url demo_env "old.example.com" cold_world))
     = 1002.
Proof.
  destruct (recorded_at_is_clock_at_start demo_env cold_world "old.example.com")
    as ([v Hv] & _ & _ & Hclock).
  - left. reflexivity.
  - vm_compute. discriminate.
  - split; [|exact Hclock]. vm_compute. reflexivity.
Defined.

Lemma append_cons (c : ascii) (a b : string) :
  String c a +:+ b = String c (a +:+ b).
Proof. reflexivity. Qed.

Lemma append_empty_r (a : string) : a +:+ "" = a.
Proof.
  induction a as [|c a IH]; [reflexivity|].
  rewrite append_cons, IH. reflexivity.
Qed.

Lemma append_assoc (a b c : string) : (a +:+ b) +:+ c = a +:+ b +:+ c.
Proof.
  induction a as [|x a IH]; [reflexivity|].
  rewrite !append_cons, IH. reflexivity.
Qed.

(** The constructor call of the redirect: a response when the Location is
    an acceptable header value, [ValueError] otherwise. *)
Lemma new_redirect_response (location : string) :
  func.new_HttpResponse "" 307 {[ "Location" := location ]}
  = if func.header_value_ok location
    then Ok (redirect_response location) else Raise ValueError.
Proof.
  unfold func.new_HttpResponse. rewrite map_fold_singleton.
  cbn [andb]. reflexivity.
Qed.

Section Handler.
Variable env : Env.

(** A negative or empty resolution: the generic 500, nothing logged. *)
Lemma handler_not_found (req : func.HttpRequest) (w w1 : World)
      (h : string) (v : option string) :
  request_hostname env req = Ok h ->
  _get_redirect_url env h w = (Ok v, w1) ->
  v = None \/ v = Some "" ->
  redirect_handler env req w = (Ok (error_response not_found_message), w1).
Proof.
  intros Hh Hr Hv. unfold redirect_handler, bind, lift.
  rewrite Hh, Hr. destruct Hv as [-> | ->]; reflexivity.
Qed.

(** A non-empty resolution whose normalised form parses. *)
Lemma handler_found (req : func.HttpRequest) (w w1 : World)
      (h target u : string) (parsed : ParseResult) :
  request_hostname env req = Ok h ->
  _get_redirect_url env h w = (Ok (Some target), w1) ->
  target <> "" ->
  normalize_target (pylib env) target = Ok (u, parsed) ->
  redirect_handler env req w
  = if PyStr.truthy (netloc parsed)
    then
      let location := spec_location u (request_path req) (request_query req) in
      (func.new_HttpResponse "" 307 {[ "Location" := location ]},
       log_event
         (EvLog INFO false
            ("Redirecting " +:+ func.method req +:+ " " +:+ func.url req
             +:+ " -> " +:+ location +:+ " (UA: "
             +:+ default "Unknown" (func.headers req !! "user-agent")
             +:+ ")")) w1)
    else
      (Ok (error_response invalid_target_message),
       log_event
         (EvLog ERROR false
            ("Invalid redirect URL for host " +:+ h +:+ ": " +:+ u)) w1).
Proof.
  intros Hh Hr Hne Hnorm. unfold redirect_handler, bind, lift.
  rewrite Hh, Hr. destruct target as [|c t]; [congruence|].
  cbv beta iota.
  unfold normalize_target in Hnorm.
  destruct (UrlParse.urlparse (pylib env) (String c t)) as [p0|e0] eqn:Hp0;
    [|discriminate].
  assert (spec_location u (request_path req) (request_query req)
          = (let new_url := PyStr.rstrip (Ascii.eqb "/") u in
             let new_url :=
               if PyStr.truthy (request_path req)
               then new_url +:+ "/" +:+ request_path req else new_url in
             if PyStr.truthy (request_query req)
             then new_url +:+ "?" +:+ request_query req else new_url)) as Hloc.
  { unfold spec_location. cbv zeta.
    destruct (PyStr.truthy (request_path req)), (PyStr.truthy (request_query req));
      rewrite ?append_empty_r, ?append_assoc; reflexivity. }
  rewrite Hloc. clear Hloc. unfold request_path, request_query.
  destruct (PyStr.truthy (scheme p0)) eqn:Hs.
  - inversion Hnorm; subst u parsed. unfold ret.
    destruct (PyStr.truthy (netloc p0)); reflexivity.
  - destruct (UrlParse.urlparse (pylib env) ("https://" +:+ String c t))
      as [p1|e1] eqn:Hp1; [|discriminate].
    inversion Hnorm; subst u parsed. unfold ret.
    destruct (PyStr.truthy (netloc p1)); reflexivity.
Qed.

(** A non-empty resolution whose normalised form does not parse: the
    [ValueError] of [urlparse] leaves the handler. *)
Lemma handler_raises (req : func.HttpRequest) (w w1 : World)
      (h target : string) (e : exn) :
  request_hostname env req = Ok h ->
  _get_redirect_url env h w = (Ok (Some target), w1) ->
  target <> "" ->
  normalize_target (pylib env) target = Raise e ->
  redirect_handler env req w = (Raise e, w1).
Proof.
  intros Hh Hr Hne Hnorm. unfold redirect_handler, bind, lift.
  rewrite Hh, Hr. destruct target as [|c t]; [congruence|].
  cbv beta iota. unfold normalize_target in Hnorm.
  destruct (UrlParse.urlparse (pylib env) (String c t)) as [p0|e0] eqn:Hp0.
  - destruct (PyStr.truthy (scheme p0)) eqn:Hs; [discriminate|].
    destruct (UrlParse.urlparse (pylib env) ("https://" +:+ String c t))
      as [p1|e1] eqn:Hp1; [discriminate|].
    injection Hnorm as <-. reflexivity.
  - injection Hnorm as <-. reflexivity.
Qed.

(** Whatever the handler returns is one of three responses. *)
Lemma handler_responses (req : func.HttpRequest) (w : World)
      (r : func.HttpResponse) :
  fst (redirect_handler env req w) = Ok r ->
  r = error_response not_found_message
  \/ r = error_response invalid_target_message
  \/ exists location, r = redirect_response location.
Proof.
  intros Hr.
  destruct (request_hostname env req) as [h|e] eqn:Hh.
  2:{ unfold redirect_handler, bind, lift in Hr. rewrite Hh in Hr.
      discriminate. }
  destruct (resolve_total env w h) as (v & w1 & Hres).
  destruct v as [target|].
  2:{ rewrite (handler_not_found req w w1 h None Hh Hres) in Hr by auto.
      left. simpl in Hr. congruence. }
  destruct (string_dec target "") as [->|Hne].
  { rewrite (handler_not_found req w w1 h (Some "") Hh Hres) in Hr by auto.
    left. simpl in Hr. congruence. }
  destruct (normalize_target (pylib env) target) as [[u parsed]|e] eqn:Hn.
  - rewrite (handler_found req w w1 h target u parsed Hh Hres Hne Hn) in Hr.
    destruct (PyStr.truthy (netloc parsed)); cbv zeta in Hr; cbn [fst] in Hr.
    + rewrite new_redirect_response in Hr.
      destruct (func.header_value_ok _); [|discriminate].
      right. right. eexists. injection Hr as <-. reflexivity.
    + right. left. congruence.
  - rewrite (handler_raises req w w1 h target e Hh Hres Hne Hn) in Hr.
    discriminate.
Qed.

End Handler.

(** ** The handler's responses *)

Lemma normalize_target_intro (lib : PyLib) (target u : string)
      (parsed0 parsed : ParseResult) :
  UrlParse.urlparse lib target = Ok parsed0 ->
  u = (if PyStr.truthy (scheme parsed0) then target else "https://" +:+ target) ->
  UrlParse.urlparse lib u = Ok parsed ->
  normalize_target lib target = Ok (u, parsed).
Proof.
  intros H0 Hu H1. unfold normalize_target. rewrite H0.
  destruct (PyStr.truthy (scheme parsed0)); subst u.
  - congruence.
  - rewrite H1. reflexivity.
Qed.

Lemma truthy_true (s : string) : s <> "" -> PyStr.truthy s = true.
Proof. destruct s; [congruence | reflexivity]. Qed.

Lemma resolver_result_world (env : Env) (w : World) (h : string) (v : option string) :
  fst (_get_redirect_url env h w) = Ok v ->
  _get_redirect_url env h w = (Ok v, snd (_get_redirect_url env h w)).
Proof. destruct (_get_redirect_url env h w) as [r w']. simpl. congruence. Qed.

(** What the handler does with a usable target: the constructor call on
    the composed Location. *)
Lemma location_rule (env : Env) (req : func.HttpRequest) (w : World)
      (h target u : string) (parsed0 parsed : ParseResult) :
  request_hostname env req = Ok h ->
  fst (_get_redirect_url env h w) = Ok (Some target) ->
  target <> "" ->
  UrlParse.urlparse (pylib env) target = Ok parsed0 ->
  u = (if PyStr.truthy (scheme parsed0) then target else "https://" +:+ target) ->
  UrlParse.urlparse (pylib env) u = Ok parsed ->
  netloc parsed <> "" ->
  fst (redirect_handler env req w)
  = if func.header_value_ok
         (spec_location u (request_path req) (request_query req))
    then Ok (redirect_response
               (spec_location u (request_path req) (request_query req)))
    else Raise ValueError.
Proof.
  intros Hh Hr Hne H0 Hu H1 Hhost.
  rewrite (handler_found env req w _ h target u parsed Hh
             (resolver_result_world env w h _ Hr) Hne
             (normalize_target_intro _ _ _ _ _ H0 Hu H1)).
  rewrite (truthy_true _ Hhost). cbv zeta. cbn [fst].
  apply new_redirect_response.
Qed.

(** The round trip of §8, for any deployment in which the resolver finds
    [example.org] for [old.example.com]. *)
Lemma round_trip_example (env : Env) (req : func.HttpRequest) (w : World) :
  func.url req = "https://old.example.com/foo/bar?x=1" ->
  func.route_params req !! "route" = Some "foo/bar" ->
  fst (_get_redirect_url env "old.example.com" w) = Ok (Some "example.org") ->
  fst (redirect_handler env req w)
  = Ok (redirect_response "https://example.org/foo/bar?x=1").
Proof.
  intros Hurl Hroute Hres.
  assert (request_hostname env req = Ok "old.example.com") as Hh.
  { unfold request_hostname. rewrite Hurl. vm_compute. reflexivity. }
  rewrite (location_rule env req w "old.example.com" "example.org"
             "https://example.org"
             {| scheme := ""; netloc := ""; path := "example.org";
                params := ""; query := ""; fragment := "" |}
             {| scheme := "https"; netloc := "example.org"; path := "";
                params := ""; query := ""; fragment := "" |});
    try assumption; try (vm_compute; reflexivity); try discriminate.
  unfold request_path, request_query. rewrite Hurl, Hroute.
  vm_compute. reflexivity.
Qed.

(** The root-path request of §8: nothing is appended. *)
Lemma root_path_example (env : Env) (req : func.HttpRequest) (w : World) :
  func.url req = "https://old.example.com/" ->
  request_path req = "" ->
  fst (_get_redirect_url env "old.example.com" w) = Ok (Some "example.org") ->
  fst (redirect_handler env req w) = Ok (redirect_response "https://example.org").
Proof.
  intros Hurl Hroute Hres.
  assert (request_hostname env req = Ok "old.example.com") as Hh.
  { unfold request_hostname. rewrite Hurl. vm_compute. reflexivity. }
  rewrite (location_rule env req w "old.example.com" "example.org"
             "https://example.org"
             {| scheme := ""; netloc := ""; path := "example.org";
                params := ""; query := ""; fragment := "" |}
             {| scheme := "https"; netloc := "example.org"; path := "";
                params := ""; query := ""; fragment := "" |});
    try assumption; try (vm_compute; reflexivity); try discriminate.
  rewrite Hroute. unfold request_query. rewrite Hurl.
  vm_compute. reflexivity.
Qed.

(** C7, as stated, fails for a found value without network location: the
    record of [path.example.com] holds [/landing], the resolver finds it,
    and the handler answers 500, not 307. *)
Lemma found_target_without_netloc_gets_no_redirect :
  fst (_get_redirect_url demo_env "path.example.com" cold_world)
  = Ok (Some "/landing")
  /\ fst (redirect_handler demo_env
            (get_request "https://path.example.com/foo" (Some "foo")) cold_world)
     = Ok (error_response invalid_target_message)
  /\ func.status_code (error_response invalid_target_message) <> 307.
Proof.
  split; [vm_compute; reflexivity|]. split; [vm_compute; reflexivity|].
  discriminate.
Qed.

(** C7, amended. For a found target that is non-empty, that [urlparse]
    accepts, whose form after the prefix rule ([https://] in front of a
    value in which [urlparse] finds no scheme) has a non-empty netloc, and
    for which the composed Location holds neither CR nor LF, the handler
    answers 307 with [Location] = that form stripped of trailing slashes,
    followed by [/] + path when the path is non-empty and by [?] + query
    when the query is non-empty.  In particular [example.org] stored for
    [old.example.com] sends [https://old.example.com/foo/bar?x=1] to
    [https://example.org/foo/bar?x=1] and the root path to
    [https://example.org]. *)
Theorem found_target_builds_location :
  (forall (env : Env) (req : func.HttpRequest) (w : World)
          (h target u location : string) (parsed0 parsed : ParseResult),
      request_hostname env req = Ok h ->
      fst (_get_redirect_url env h w) = Ok (Some target) ->
      target <> "" ->
      UrlParse.urlparse (pylib env) target = Ok parsed0 ->
      u = (if PyStr.truthy (scheme parsed0) then target
           else "https://" +:+ target) ->
      UrlParse.urlparse (pylib env) u = Ok parsed ->
      netloc parsed <> "" ->
      location = PyStr.rstrip (Ascii.eqb "/") u
                 +:+ (if PyStr.truthy (request_path req)
                      then "/" +:+ request_path req else "")
                 +:+ (if PyStr.truthy (request_query req)
                      then "?" +:+ request_query req else "") ->
      PyStr.contains "010" location = false ->
      PyStr.contains "013" location = false ->
      fst (redirect_handler env req w)
      = Ok {| func.status_code := 307; func.body := "";
              func.response_headers := {[ "Location" := location ]} |})
  /\ (forall (env : Env) (req : func.HttpRequest) (w : World),
        func.url req = "https://old.example.com/foo/bar?x=1" ->
        func.route_params req !! "route" = Some "foo/bar" ->
        fst (_get_redirect_url env "old.example.com" w) = Ok (Some "example.org") ->
        fst (redirect_handler env req w)
        = Ok {| func.status_code := 307; func.body := "";
                func.response_headers :=
                  {[ "Location" := "https://example.org/foo/bar?x=1" ]} |})
  /\ (forall (env : Env) (req : func.HttpRequest) (w : World),
        func.url req = "https://old.example.com/" ->
        request_path req = "" ->
        fst (_get_redirect_url env "old.example.com" w) = Ok (Some "example.org") ->
        fst (redirect_handler env req w)
        = Ok {| func.status_code := 307; func.body := "";
                func.response_headers :=
                  {[ "Location" := "https://example.org" ]} |}).
Proof.
  split; [|split].
  - intros env req w h target u location parsed0 parsed
           Hh Hr Hne H0 Hu H1 Hhost Hloc Hlf Hcr.
    rewrite (location_rule env req w h target u parsed0 parsed
               Hh Hr Hne H0 Hu H1 Hhost).
    fold (spec_location u (request_path req) (request_query req)) in Hloc.
    rewrite <- Hloc. unfold func.header_value_ok. rewrite Hlf, Hcr.
    reflexivity.
  - intros. apply round_trip_example; assumption.
  - intros. apply root_path_example; assumption.
Qed.

Lemma found_target_builds_location_witness :
  fst (redirect_handler demo_env
         (get_request "https://old.example.com/foo/bar?x=1" (Some "foo/bar"))
         cold_world)
  = Ok {| func.status_code := 307; func.body := "";
          func.response_headers :=
            {[ "Location" := "https://example.org/foo/bar?x=1" ]} |}
  /\ fst (redirect_handler demo_env
            (get_request "https://old.example.com/" None) warm_world)
     = Ok {| func.status_code := 307; func.body := "";
             func.response_headers := {[ "Location" := "https://example.org" ]} |}
  /\ fst (redirect_handler demo_env
            (get_request "http://Slash.Example.com:8080/a/b?k=v" (Some "a/b"))
            cold_world)
     = Ok {| func.status_code := 307; func.body := "";
             func.response_headers :=
               {[ "Location" := "http://new.example.net/base/a/b?k=v" ]} |}.
Proof.
  destruct found_target_builds_location as (Hrule & Hrt & Hroot).
  split; [|split].
  - apply Hrt; vm_compute; reflexivity.
  - apply Hroot; vm_compute; reflexivity.
  - apply (Hrule demo_env
             (get_request "http://Slash.Example.com:8080/a/b?k=v" (Some "a/b"))
             cold_world "slash.example.com" "http://new.example.net/base//"
             "http://new.example.net/base//"
             "http://new.example.net/base/a/b?k=v"
             {| scheme := "http"; netloc := "new.example.net";
                path := "/base//"; params := ""; query := ""; fragment := "" |}
             {| scheme := "http"; netloc := "new.example.net";
                path := "/base//"; params := ""; query := ""; fragment := "" |});
      try (vm_compute; reflexivity); try discriminate.
Defined.

Lemma messages_differ : not_found_message <> invalid_target_message.
Proof. discriminate. Qed.

(** C2, as stated, fails on the empty string: a stored [RedirectUrl] of
    [""] is answered with the not-found message, not with the
    invalid-target message. *)
Lemma empty_target_gets_not_found_message :
  table_get_entity demo_env "empty.example.com" "default"
  = Entity {[ "RedirectUrl" := "" ]}
  /\ fst (redirect_handler demo_env
            (get_request "https://empty.example.com/" None) cold_world)
     = Ok (error_response not_found_message)
  /\ fst (redirect_handler demo_env
            (get_request "https://empty.example.com/" None) cold_world)
     <> Ok (error_response invalid_target_message).
Proof.
  split; [reflexivity|]. split.
  - vm_compute. reflexivity.
  - vm_compute. discriminate.
Qed.

(** C2, amended. A stored value that is non-empty, that [urlparse]
    accepts, and whose form after the prefix rule ([https://] in front of a
    value in which [urlparse] finds no scheme) is accepted too and has an
    empty netloc, is answered with HTTP 500 and the invalid-target message,
    which differs from the not-found message; the empty string is answered
    with the not-found message. *)
Theorem malformed_target_gets_invalid_message
    (env : Env) (req : func.HttpRequest) (w : World) (h : string)
    (v : option string) :
  request_hostname env req = Ok h ->
  fst (_get_redirect_url env h w) = Ok v ->
  (forall target u parsed0 parsed,
      v = Some target ->
      target <> "" ->
      UrlParse.urlparse (pylib env) target = Ok parsed0 ->
      u = (if PyStr.truthy (scheme parsed0) then target
           else "https://" +:+ target) ->
      UrlParse.urlparse (pylib env) u = Ok parsed ->
      netloc parsed = "" ->
      fst (redirect_handler env req w)
      = Ok {| func.status_code := 500; func.body := invalid_target_message;
              func.response_headers := ∅ |})
  /\ (v = Some "" ->
      fst (redirect_handler env req w)
      = Ok {| func.status_code := 500; func.body := not_found_message;
              func.response_headers := ∅ |})
  /\ invalid_target_message <> not_found_message.
Proof.
  intros Hh Hr. split; [|split].
  - intros target u parsed0 parsed -> Hne H0 Hu H1 Hhost.
    rewrite (handler_found env req w _ h target u parsed Hh
               (resolver_result_world env w h _ Hr) Hne
               (normalize_target_intro _ _ _ _ _ H0 Hu H1)).
    rewrite Hhost. reflexivity.
  - intros ->.
    rewrite (handler_not_found env req w _ h (Some "") Hh
               (resolver_result_world env w h _ Hr)) by auto.
    reflexivity.
  - discriminate.
Qed.

Lemma malformed_target_gets_invalid_message_witness :
  fst (redirect_handler demo_env
         (get_request "https://path.example.com/x" (Some "x")) cold_world)
  = Ok {| func.status_code := 500; func.body := invalid_target_message;
          func.response_headers := ∅ |}.
Proof.
  destruct (malformed_target_gets_invalid_message demo_env
              (get_request "https://path.example.com/x" (Some "x")) cold_world
              "path.example.com" (Some "/landing")) as (H & _ & _).
  - vm_compute. reflexivity.
  - vm_compute. reflexivity.
  - apply (H "/landing" "https:///landing"
             {| scheme := ""; netloc := ""; path := "/landing";
                params := ""; query := ""; fragment := "" |}
             {| scheme := "https"; netloc := ""; path := "/landing";
                params := ""; query := ""; fragment := "" |});
      try (vm_compute; reflexivity); try discriminate.
Defined.

(** C3, as stated, fails on the empty string: a record whose [RedirectUrl]
    is [""] is cached and returned as the empty string, while the negative
    outcome is the value [None]. *)
Lemma empty_destination_not_cached_as_negative :
  table_get_entity demo_env "empty.example.com" "default"
  = Entity {[ "RedirectUrl" := "" ]}
  /\ table_get_entity demo_env "unknown.example.com" "default"
     = ResourceNotFoundError
  /\ _get_redirect_url demo_env "empty.example.com" cold_world
     = (Ok (Some ""),
        {| _cache := {[ "empty.example.com" := (Some "", 1000) ]};
           wall_clock := 1002;
           trace := [EvClock 1000; EvGetEntity "empty.example.com" "default"] |})
  /\ _get_redirect_url demo_env "unknown.example.com" cold_world
     = (Ok None,
        {| _cache := {[ "unknown.example.com" := (None, 1000) ]};
           wall_clock := 1002;
           trace := [EvClock 1000; EvGetEntity "unknown.example.com" "default";
                     EvLog WARNING false
                       "No redirect entry for host unknown.example.com"] |})
  /\ _cache (snd (_get_redirect_url demo_env "empty.example.com" cold_world))
       !! "empty.example.com" <> Some (None, 1000).
Proof.
  split; [reflexivity|]. split; [reflexivity|].
  split; [vm_compute; reflexivity|]. split; [vm_compute; reflexivity|].
  vm_compute. discriminate.
Qed.

(** C3, amended. For a record whose [RedirectUrl] is absent or empty the
    resolver caches the field's value as it is ([None] when absent, as for
    a missing record; the empty string when empty) with the clock reading
    of the resolution, and the handler answers exactly as for a host
    without record: HTTP 500 with the not-found message, on this request
    and on any later one served from that entry. *)
Theorem empty_or_absent_destination_answered_as_not_found
    (env env_nf : Env) (req : func.HttpRequest) (w : World) (h : string)
    (entity : gmap string string) :
  request_hostname env req = Ok h ->
  request_hostname env_nf req = Ok h ->
  needs_lookup env w h ->
  needs_lookup env_nf w h ->
  table_get_entity env h "default" = Entity entity ->
  table_get_entity env_nf h "default" = ResourceNotFoundError ->
  entity !! "RedirectUrl" = None \/ entity !! "RedirectUrl" = Some "" ->
  fst (redirect_handler env req w) = Ok (error_response not_found_message)
  /\ fst (redirect_handler env req w) = fst (redirect_handler env_nf req w)
  /\ _cache (snd (redirect_handler env req w))
     = <[h := (entity !! "RedirectUrl", wall_clock w)]> (_cache w)
  /\ _cache (snd (redirect_handler env_nf req w))
     = <[h := (None, wall_clock w)]> (_cache w)
  /\ (forall w2 recordedAt,
        _cache w2 !! h = Some (entity !! "RedirectUrl", recordedAt) ->
        fresh env (wall_clock w2) (entity !! "RedirectUrl", recordedAt) ->
        fst (redirect_handler env req w2) = Ok (error_response not_found_message)
        /\ store_calls (trace (snd (redirect_handler env req w2)))
           = store_calls (trace w2)).
Proof.
  intros Hh Hh' Hn Hn' He He' Hv.
  pose proof (resolve_lookup env w h Hn) as Hr. rewrite He in Hr. simpl in Hr.
  pose proof (resolve_lookup env_nf w h Hn') as Hr'. rewrite He' in Hr'.
  simpl in Hr'.
  rewrite (handler_not_found env req w _ h _ Hh Hr Hv).
  rewrite (handler_not_found env_nf req w _ h None Hh' Hr') by auto.
  unfold after_lookup. rewrite He, He'. simpl.
  repeat (split; [reflexivity|]).
  intros w2 ts Hc Hf.
  rewrite (handler_not_found env req w2 _ h _ Hh
             (resolve_fresh env w2 h _ ts Hc Hf) Hv).
  simpl. rewrite store_calls_app. simpl. split; [reflexivity | lia].
Qed.

Lemma empty_or_absent_destination_answered_as_not_found_witness :
  fst (redirect_handler demo_env
         (get_request "https://nofield.example.com/" None) cold_world)
  = Ok (error_response not_found_message)
  /\ _cache (snd (redirect_handler demo_env
                    (get_request "https://nofield.example.com/" None) cold_world))
     = {[ "nofield.example.com" := (None, 1000) ]}.
Proof.
  destruct (empty_or_absent_destination_answered_as_not_found
              demo_env
              bare_env
              (get_request "https://nofield.example.com/" None) cold_world
              "nofield.example.com" {[ "Owner" := "ops" ]})
    as (H1 & _ & H3 & _).
  - vm_compute. reflexivity.
  - vm_compute. reflexivity.
  - left. reflexivity.
  - left. reflexivity.
  - vm_compute. reflexivity.
  - reflexivity.
  - left. vm_compute. reflexivity.
  - split; [exact H1|]. rewrite H3. vm_compute. reflexivity.
Defined.

(** C8. The response does not tell a missing record from a failed store
    call: both give the same HTTP 500 with the not-found message.  The
    handler has two 500 bodies in all, the not-found message and the
    invalid-target message; they differ and both occur. *)
Theorem not_found_and_transient_error_answered_alike :
  (forall (env_nf env_te : Env) (w_nf w_te : World) (req : func.HttpRequest)
          (h : string),
      request_hostname env_nf req = Ok h ->
      request_hostname env_te req = Ok h ->
      needs_lookup env_nf w_nf h ->
      needs_lookup env_te w_te h ->
      table_get_entity env_nf h "default" = ResourceNotFoundError ->
      table_get_entity env_te h "default" = OtherException ->
      fst (redirect_handler env_nf req w_nf)
      = Ok {| func.status_code := 500; func.body := not_found_message;
              func.response_headers := ∅ |}
      /\ fst (redirect_handler env_te req w_te)
         = fst (redirect_handler env_nf req w_nf))
  /\ (forall (env : Env) (req : func.HttpRequest) (w : World)
             (r : func.HttpResponse),
        fst (redirect_handler env req w) = Ok r ->
        func.status_code r = 500 ->
        func.body r = not_found_message \/ func.body r = invalid_target_message)
  /\ not_found_message <> invalid_target_message
  /\ String.index 0 "redirect url not found" not_found_message <> None
  /\ String.index 0 "invalid redirect target" invalid_target_message <> None
  /\ (exists env req w,
        fst (redirect_handler env req w) = Ok (error_response not_found_message))
  /\ (exists env req w,
        fst (redirect_handler env req w)
        = Ok (error_response invalid_target_message)).
Proof.
  split; [|split; [|split; [|split; [|split; [|split]]]]].
  - intros env_nf env_te w_nf w_te req h Hh Hh' Hn Hn' He He'.
    pose proof (resolve_lookup env_nf w_nf h Hn) as Hr. rewrite He in Hr.
    pose proof (resolve_lookup env_te w_te h Hn') as Hr'. rewrite He' in Hr'.
    simpl in Hr, Hr'.
    rewrite (handler_not_found env_nf req w_nf _ h None Hh Hr) by auto.
    rewrite (handler_not_found env_te req w_te _ h None Hh' Hr') by auto.
    split; reflexivity.
  - intros env req w r Hr Hs.
    destruct (handler_responses env req w r Hr) as [->|[->|[loc ->]]].
    + left. reflexivity.
    + right. reflexivity.
    + simpl in Hs. discriminate.
  - discriminate.
  - vm_compute. discriminate.
  - vm_compute. discriminate.
  - exists demo_env, (get_request "https://unknown.example.com/" None), cold_world.
    vm_compute. reflexivity.
  - exists demo_env, (get_request "https://path.example.com/" None), cold_world.
    vm_compute. reflexivity.
Qed.

Lemma not_found_and_transient_error_answered_alike_witness :
  fst (redirect_handler demo_env
         (get_request "https://broken.example.com/a" (Some "a")) warm_world)
  = Ok (error_response not_found_message)
  /\ fst (redirect_handler demo_env
            (get_request "https://broken.example.com/a" (Some "a")) warm_world)
     = fst (redirect_handler
              bare_env
              (get_request "https://broken.example.com/a" (Some "a")) cold_world).
Proof.
  destruct not_found_and_transient_error_answered_alike as (H & _).
  destruct (H bare_env
              demo_env cold_world warm_world
              (get_request "https://broken.example.com/a" (Some "a"))
              "broken.example.com") as [H1 H2].
  - vm_compute. reflexivity.
  - vm_compute. reflexivity.
  - left. reflexivity.
  - right. exists (Some "legacy.example.net"), 100.
    split; [reflexivity|]. vm_compute. discriminate.
  - reflexivity.
  - reflexivity.
  - split; [|exact H2]. rewrite H2. exact H1.
Defined.

(** ** The lookup key *)

Lemma lower_char_not_colon (c : ascii) :
  Ascii.eqb ":" (PyStr.lower_char c) = Ascii.eqb ":" c.
Proof. destruct c as [[] [] [] [] [] [] [] []]; vm_compute; reflexivity. Qed.

Lemma partition_lower_no_colon (host : string) :
  PyStr.contains ":" host = false ->
  PyStr.partition ":" (PyStr.lower host) = None.
Proof.
  induction host as [|c host IH];
    cbn [PyStr.lower PyStr.partition PyStr.contains]; [reflexivity|].
  rewrite lower_char_not_colon. intros H.
  apply orb_false_iff in H as [Hc Hrest]. rewrite Hc, (IH Hrest). reflexivity.
Qed.

Lemma lower_append (a b : string) :
  PyStr.lower (a +:+ b) = PyStr.lower a +:+ PyStr.lower b.
Proof.
  induction a as [|c a IH]; [reflexivity|].
  rewrite append_cons. cbn [PyStr.lower]. rewrite IH. reflexivity.
Qed.

Lemma split_first_append (a b : string) :
  PyStr.partition ":" a = None ->
  PyStr.split_first ":" (a +:+ String ":" b) = a.
Proof.
  unfold PyStr.split_first. induction a as [|c a IH]; [reflexivity|].
  rewrite append_cons. cbn [PyStr.partition].
  destruct (Ascii.eqb ":" c); [discriminate|].
  destruct (PyStr.partition ":" a) as [[x y]|] eqn:Hp; [discriminate|].
  intros _. specialize (IH eq_refl).
  destruct (PyStr.partition ":" (a +:+ String ":" b)) as [[x y]|];
    congruence.
Qed.

(** For an authority [host] or [host:port] whose host has no colon, the
    key is the lower-cased host. *)
Lemma request_hostname_plain_authority
      (env : Env) (req : func.HttpRequest) (parsed : ParseResult)
      (host : string) (port : option string) :
  UrlParse.urlparse (pylib env) (func.url req) = Ok parsed ->
  netloc parsed = match port with
                  | Some p => host +:+ String ":" p
                  | None => host
                  end ->
  PyStr.contains ":" host = false ->
  request_hostname env req = Ok (PyStr.lower host).
Proof.
  intros Hp Hn Hc. unfold request_hostname. rewrite Hp, Hn. f_equal.
  pose proof (partition_lower_no_colon host Hc) as Hl.
  destruct port as [p|].
  - rewrite lower_append. apply (split_first_append _ (PyStr.lower p)), Hl.
  - unfold PyStr.split_first. rewrite Hl. reflexivity.
Qed.

(** Requests whose parsed authority is the same text get the same key. *)
Lemma request_hostname_same_authority
      (env : Env) (req1 req2 : func.HttpRequest) (p1 p2 : ParseResult) :
  UrlParse.urlparse (pylib env) (func.url req1) = Ok p1 ->
  UrlParse.urlparse (pylib env) (func.url req2) = Ok p2 ->
  netloc p1 = netloc p2 ->
  request_hostname env req1 = request_hostname env req2.
Proof.
  intros H1 H2 Hn. unfold request_hostname. rewrite H1, H2, Hn. reflexivity.
Qed.

(** C9, at an authority that holds an IPv6 literal: the key computed is the
    text before the first colon of the literal (one opening bracket for
    the loopback address with port 7071), not the lower-cased host with the
    port taken off, and the store is asked for that partition. *)
Theorem ipv6_literal_authority_key :
  UrlParse.urlparse example_lib "http://[::1]:7071/api"
  = Ok {| scheme := "http"; netloc := "[::1]:7071"; path := "/api";
          params := ""; query := ""; fragment := "" |}
  /\ request_hostname demo_env (get_request "http://[::1]:7071/api" (Some "api"))
     = Ok "["
  /\ request_hostname demo_env
       (get_request "http://[2001:db8::1]/api" (Some "api"))
     = Ok "[2001"
  /\ trace (snd (redirect_handler demo_env
                   (get_request "http://[::1]:7071/api" (Some "api"))
                   cold_world))
     = [EvClock 1000; EvGetEntity "[" "default";
        EvLog WARNING false "No redirect entry for host ["].
Proof. repeat split; vm_compute; reflexivity. Qed.

(** * Further properties of the code *)

(** ** The table client *)

(** X1. The first successful call builds the client from the endpoint
    setting and from [REDIRECT_TABLE_NAME] (default [redirects], a set but
    empty name is kept), stores it, and every later call returns that same
    client without looking at the environment again. *)
Theorem table_client_built_once (p : Platform) (e : string) :
  environ p !! "AzureWebJobsStorage__tableServiceUri" = Some e ->
  constructor_returns p e (getenv p "REDIRECT_TABLE_NAME" "redirects") = true ->
  let client :=
    {| endpoint := e;
       table_name := match environ p !! "REDIRECT_TABLE_NAME" with
                     | Some name => name
                     | None => "redirects"
                     end |} in
  _get_table_client p None = (inl client, Some client)
  /\ forall p', _get_table_client p' (snd (_get_table_client p None))
                = (inl client, Some client).
Proof.
  intros He Hc. cbv zeta.
  assert (_get_table_client p None
          = (inl {| endpoint := e;
                    table_name := match environ p !! "REDIRECT_TABLE_NAME" with
                                  | Some name => name
                                  | None => "redirects"
                                  end |},
             Some {| endpoint := e;
                     table_name := match environ p !! "REDIRECT_TABLE_NAME" with
                                   | Some name => name
                                   | None => "redirects"
                                   end |})) as Hfirst.
  { unfold _get_table_client. rewrite He, Hc. unfold getenv.
    destruct (environ p !! "REDIRECT_TABLE_NAME"); reflexivity. }
  split; [exact Hfirst|]. intros p'. rewrite Hfirst. reflexivity.
Qed.

Lemma table_client_built_once_witness :
  _get_table_client unconfigured_platform
    (snd (_get_table_client demo_platform None))
  = (inl {| endpoint := "https://acct.table.core.windows.net";
            table_name := "redirects" |},
     Some {| endpoint := "https://acct.table.core.windows.net";
             table_name := "redirects" |}).
Proof.
  destruct (table_client_built_once demo_platform
              "https://acct.table.core.windows.net") as [_ H].
  - reflexivity.
  - reflexivity.
  - exact (H unconfigured_platform).
Defined.

(** X2. Without the endpoint setting the call raises [KeyError] and leaves
    [_table_client] unset, so nothing is remembered of the failure: once
    the setting is there, the next call builds the client. *)
Theorem missing_endpoint_not_remembered (p p' : Platform) (e : string) :
  environ p !! "AzureWebJobsStorage__tableServiceUri" = None ->
  environ p' !! "AzureWebJobsStorage__tableServiceUri" = Some e ->
  constructor_returns p' e (getenv p' "REDIRECT_TABLE_NAME" "redirects") = true ->
  _get_table_client p None
  = (inr (KeyError "AzureWebJobsStorage__tableServiceUri"), None)
  /\ fst (_get_table_client p' (snd (_get_table_client p None)))
     = inl {| endpoint := e;
              table_name := getenv p' "REDIRECT_TABLE_NAME" "redirects" |}.
Proof.
  intros Hnone He Hc.
  assert (_get_table_client p None
          = (inr (KeyError "AzureWebJobsStorage__tableServiceUri"), None)) as H.
  { unfold _get_table_client. rewrite Hnone. reflexivity. }
  split; [exact H|]. rewrite H. simpl. unfold _get_table_client.
  rewrite He, Hc. reflexivity.
Qed.

Lemma missing_endpoint_not_remembered_witness :
  _get_table_client unconfigured_platform None
  = (inr (KeyError "AzureWebJobsStorage__tableServiceUri"), None)
  /\ fst (_get_table_client demo_platform
            (snd (_get_table_client unconfigured_platform None)))
     = inl {| endpoint := "https://acct.table.core.windows.net";
              table_name := "redirects" |}.
Proof.
  apply (missing_endpoint_not_remembered unconfigured_platform demo_platform
           "https://acct.table.core.windows.net"); reflexivity.
Defined.


(** X4. A process without the endpoint setting treats every lookup as a
    transient error: for a host without fresh entry the resolver returns
    [None], logs the failure, writes nothing to the cache, and the handler
    answers with the not-found 500. *)
Theorem missing_endpoint_is_transient_error
    (lib : PyLib) (ttl : Z) (duration : string -> Z) (p : Platform)
    (req : func.HttpRequest) (w : World) (h : string) :
  environ p !! "AzureWebJobsStorage__tableServiceUri" = None ->
  request_hostname (process_env lib ttl duration p None) req = Ok h ->
  needs_lookup (process_env lib ttl duration p None) w h ->
  let run := redirect_handler (process_env lib ttl duration p None) req w in
  fst run = Ok (error_response not_found_message)
  /\ _cache (snd run) = _cache w
  /\ trace (snd run)
     = trace w ++ [EvClock (wall_clock w); EvGetEntity h "default";
                   EvLog ERROR true ("Failed to look up redirect for " +:+ h)].
Proof.
  intros Hnone Hh Hn. cbv zeta.
  pose proof (resolve_lookup _ w h Hn) as Hr.
  assert (table_get_entity (process_env lib ttl duration p None) h "default"
          = OtherException) as Herr.
  { simpl. unfold lookup_expression, _get_table_client. rewrite Hnone.
    reflexivity. }
  rewrite Herr in Hr. simpl lookup_value in Hr.
  rewrite (handler_not_found _ req w _ h None Hh Hr) by auto.
  unfold after_lookup. rewrite Herr. simpl. repeat split.
Qed.

Lemma missing_endpoint_is_transient_error_witness :
  fst (redirect_handler
         (process_env example_lib 300 (fun _ => 2) unconfigured_platform None)
         (get_request "https://old.example.com/" None) cold_world)
  = Ok (error_response not_found_message)
  /\ _cache (snd (redirect_handler
                    (process_env example_lib 300 (fun _ => 2)
                       unconfigured_platform None)
                    (get_request "https://old.example.com/" None) cold_world))
     = ∅.
Proof.
  destruct (missing_endpoint_is_transient_error example_lib 300 (fun _ => 2)
              unconfigured_platform
              (get_request "https://old.example.com/" None) cold_world
              "old.example.com") as (H1 & H2 & _).
  - reflexivity.
  - vm_compute. reflexivity.
  - left. reflexivity.
  - split; [exact H1 | exact H2].
Defined.

(** ** The resolver over several calls *)

(** X5. After a resolution that asked the store and got a record or the
    not-found signal, any resolution of the same host that starts less
    than TTL after the start of the first one returns the same value and
    makes no store call. *)
Theorem repeat_within_ttl_served_from_cache
    (env : Env) (w w2 : World) (h : string) :
  needs_lookup env w h ->
  table_get_entity env h "default" <> OtherException ->
  _cache w2 !! h = _cache (snd (_get_redirect_url env h w)) !! h ->
  wall_clock w2 - wall_clock w < _CACHE_TTL env ->
  fst (_get_redirect_url env h w2) = fst (_get_redirect_url env h w)
  /\ store_calls (trace (snd (_get_redirect_url env h w2)))
     = store_calls (trace w2).
Proof.
  intros Hn Hok Hc Ht. rewrite (resolve_lookup env w h Hn) in Hc |- *.
  assert (_cache w2 !! h
          = Some (lookup_value (table_get_entity env h "default"), wall_clock w))
    as Hentry.
  { rewrite Hc. unfold after_lookup. simpl.
    destruct (table_get_entity env h "default"); try congruence;
      apply lookup_insert_eq. }
  rewrite (resolve_fresh env w2 h _ _ Hentry Ht). simpl.
  rewrite store_calls_app. simpl. split; [reflexivity | lia].
Qed.

Lemma repeat_within_ttl_served_from_cache_witness :
  fst (_get_redirect_url demo_env "unknown.example.com"
         (at_clock 1299 (snd (_get_redirect_url demo_env "unknown.example.com"
                                cold_world))))
  = Ok None
  /\ store_calls
       (trace (snd (_get_redirect_url demo_env "unknown.example.com"
                      (at_clock 1299
                         (snd (_get_redirect_url demo_env "unknown.example.com"
                                 cold_world))))))
     = 1%nat.
Proof.
  destruct (repeat_within_ttl_served_from_cache demo_env cold_world
              (at_clock 1299 (snd (_get_redirect_url demo_env
                                     "unknown.example.com" cold_world)))
              "unknown.example.com") as [H1 H2].
  - left. reflexivity.
  - vm_compute. discriminate.
  - reflexivity.
  - vm_compute. reflexivity.
  - split.
    + rewrite H1. vm_compute. reflexivity.
    + rewrite H2. vm_compute. reflexivity.
Defined.

(** X6. A resolution of [h] touches no entry but the one of [h], and it
    never removes an entry: every host that had an entry before has one
    after. *)
Theorem resolver_changes_only_its_key (env : Env) (w : World) (h : string) :
  (forall h', h' <> h ->
              _cache (snd (_get_redirect_url env h w)) !! h' = _cache w !! h')
  /\ (forall h', is_Some (_cache w !! h') ->
                 is_Some (_cache (snd (_get_redirect_url env h w)) !! h')).
Proof.
  assert (_cache (snd (_get_redirect_url env h w)) = _cache w
          \/ exists entry,
               _cache (snd (_get_redirect_url env h w)) = <[h := entry]> (_cache w))
    as Hshape.
  { destruct (resolve_cases env w h) as [(v & ts & _ & _ & ->)|[_ ->]].
    - left. reflexivity.
    - unfold after_lookup. simpl.
      destruct (table_get_entity env h "default"); eauto. }
  split.
  - intros h' Hne. destruct Hshape as [->|[entry ->]]; [reflexivity|].
    apply lookup_insert_ne. congruence.
  - intros h' Hs. destruct Hshape as [->|[entry ->]]; [exact Hs|].
    destruct (decide (h = h')) as [->|Hne].
    + rewrite lookup_insert_eq. eauto.
    + rewrite lookup_insert_ne by exact Hne. exact Hs.
Qed.

Lemma resolver_changes_only_its_key_witness :
  _cache (snd (_get_redirect_url demo_env "moved.example.com" warm_world))
    !! "gone.example.com" = Some (None, 900).
Proof.
  destruct (resolver_changes_only_its_key demo_env warm_world "moved.example.com")
    as [H _].
  rewrite H; [reflexivity | discriminate].
Defined.

(** X7. A transient error is retried by the next resolution: when the
    store failed for a host without fresh entry, a later resolution of that
    host (the clock not set back, the store call not of negative duration)
    asks the store again and returns what the store then answers. *)
Theorem transient_error_retried_by_next_resolution
    (env env' : Env) (w w2 : World) (h : string) :
  needs_lookup env w h ->
  table_get_entity env h "default" = OtherException ->
  _CACHE_TTL env' = _CACHE_TTL env ->
  _cache w2 !! h = _cache (snd (_get_redirect_url env h w)) !! h ->
  wall_clock w <= wall_clock w2 ->
  fst (_get_redirect_url env' h w2)
  = Ok (lookup_value (table_get_entity env' h "default"))
  /\ store_calls (trace (snd (_get_redirect_url env' h w2)))
     = S (store_calls (trace w2)).
Proof.
  intros Hn Herr Httl Hc Hclock.
  rewrite (resolve_lookup env w h Hn) in Hc. unfold after_lookup in Hc.
  simpl in Hc. rewrite Herr in Hc.
  assert (needs_lookup env' w2 h) as Hn2.
  { destruct Hn as [Hnone|(v & ts & Hsome & Hstale)].
    - left. congruence.
    - right. exists v, ts. split; [congruence | lia]. }
  rewrite (resolve_lookup env' w2 h Hn2). unfold after_lookup. simpl.
  rewrite store_calls_app. simpl. rewrite store_calls_lookup_log.
  split; [reflexivity | lia].
Qed.

Lemma transient_error_retried_by_next_resolution_witness :
  fst (_get_redirect_url demo_env "broken.example.com" warm_world) = Ok None
  /\ fst (_get_redirect_url recovered_env "broken.example.com"
            (snd (_get_redirect_url demo_env "broken.example.com" warm_world)))
     = Ok (Some "https://back.example.net").
Proof.
  split; [vm_compute; reflexivity|].
  destruct (transient_error_retried_by_next_resolution demo_env recovered_env
              warm_world
              (snd (_get_redirect_url demo_env "broken.example.com" warm_world))
              "broken.example.com") as [H _].
  - right. exists (Some "legacy.example.net"), 100.
    split; [reflexivity|]. vm_compute. discriminate.
  - reflexivity.
  - reflexivity.
  - reflexivity.
  - vm_compute. discriminate.
  - rewrite H. vm_compute. reflexivity.
Defined.

(** X8. The entry is stamped with the clock value read before the store
    call, so when the call takes at least TTL the entry is stale as soon as
    it is written: the next resolution, started right after, asks the
    store again. *)
Theorem slow_lookup_entry_stale_on_arrival (env : Env) (w : World) (h : string) :
  needs_lookup env w h ->
  table_get_entity env h "default" <> OtherException ->
  _CACHE_TTL env <= lookup_duration env h ->
  needs_lookup env (snd (_get_redirect_url env h w)) h
  /\ store_calls
       (trace (snd (_get_redirect_url env h (snd (_get_redirect_url env h w)))))
     = S (S (store_calls (trace w))).
Proof.
  intros Hn Hok Hslow.
  assert (needs_lookup env (snd (_get_redirect_url env h w)) h) as Hn2.
  { rewrite (resolve_lookup env w h Hn). unfold after_lookup. simpl.
    right. exists (lookup_value (table_get_entity env h "default")), (wall_clock w).
    split; [|simpl; lia].
    simpl. destruct (table_get_entity env h "default"); try congruence;
      apply lookup_insert_eq. }
  split; [exact Hn2|].
  rewrite (resolve_lookup env _ h Hn2). unfold after_lookup at 1. simpl.
  rewrite store_calls_app. simpl. rewrite store_calls_lookup_log.
  rewrite (resolve_lookup env w h Hn). unfold after_lookup. simpl.
  rewrite store_calls_app. simpl. rewrite store_calls_lookup_log. lia.
Qed.

Lemma slow_lookup_entry_stale_on_arrival_witness :
  store_calls
    (trace (snd (_get_redirect_url slow_env "old.example.com"
                   (snd (_get_redirect_url slow_env "old.example.com" cold_world)))))
  = 2%nat.
Proof.
  destruct (slow_lookup_entry_stale_on_arrival slow_env cold_world
              "old.example.com") as [_ H].
  - left. reflexivity.
  - vm_compute. discriminate.
  - vm_compute. discriminate.
  - exact H.
Defined.

(** X9. With a TTL of zero or less no entry is ever fresh (as long as no
    entry is stamped later than the clock reads), so every resolution asks
    the store. *)
Theorem nonpositive_ttl_disables_cache (env : Env) (w : World) (h : string) :
  _CACHE_TTL env <= 0 ->
  (forall v recordedAt,
      _cache w !! h = Some (v, recordedAt) -> recordedAt <= wall_clock w) ->
  store_calls (trace (snd (_get_redirect_url env h w)))
  = S (store_calls (trace w))
  /\ fst (_get_redirect_url env h w)
     = Ok (lookup_value (table_get_entity env h "default")).
Proof.
  intros Httl Hpast.
  assert (needs_lookup env w h) as Hn.
  { destruct (_cache w !! h) as [[v ts]|] eqn:Hc in |- .
    - right. exists v, ts. split; [exact Hc|].
      specialize (Hpast v ts Hc). lia.
    - left. exact Hc. }
  rewrite (resolve_lookup env w h Hn). unfold after_lookup. simpl.
  rewrite store_calls_app. simpl. rewrite store_calls_lookup_log.
  split; [lia | reflexivity].
Qed.

Lemma nonpositive_ttl_disables_cache_witness :
  store_calls (trace (snd (_get_redirect_url uncached_env "old.example.com"
                             warm_world)))
  = 1%nat.
Proof.
  destruct (nonpositive_ttl_disables_cache uncached_env warm_world
              "old.example.com") as [H _].
  - vm_compute. discriminate.
  - intros v ts Hc. vm_compute in Hc. inversion Hc; subst.
    vm_compute. discriminate.
  - exact H.
Defined.

(** ** The handler: errors and effects *)

(** X10. When [urlparse] rejects the request URL, its [ValueError] leaves
    the handler before anything else happens: no clock read, no store call,
    no cache write, no log record. *)
Theorem rejected_request_url_has_no_effect
    (env : Env) (req : func.HttpRequest) (w : World) (e : exn) :
  UrlParse.urlparse (pylib env) (func.url req) = Raise e ->
  redirect_handler env req w = (Raise e, w).
Proof.
  intros H. unfold redirect_handler, bind, lift, request_hostname.
  rewrite H. reflexivity.
Qed.

Lemma rejected_request_url_has_no_effect_witness :
  redirect_handler demo_env (get_request "http://[/" None) warm_world
  = (Raise ValueError, warm_world).
Proof.
  apply rejected_request_url_has_no_effect. vm_compute. reflexivity.
Defined.

(** X11. The decision depends on the URL and on the route parameter only:
    two requests that agree on both get the same response (or the same
    exception) and leave the same cache and clock, whatever their methods
    and headers. *)
Theorem method_and_headers_do_not_matter
    (env : Env) (req1 req2 : func.HttpRequest) (w : World) :
  func.url req1 = func.url req2 ->
  func.route_params req1 !! "route" = func.route_params req2 !! "route" ->
  fst (redirect_handler env req1 w) = fst (redirect_handler env req2 w)
  /\ _cache (snd (redirect_handler env req1 w))
     = _cache (snd (redirect_handler env req2 w))
  /\ wall_clock (snd (redirect_handler env req1 w))
     = wall_clock (snd (redirect_handler env req2 w))
  /\ store_calls (trace (snd (redirect_handler env req1 w)))
     = store_calls (trace (snd (redirect_handler env req2 w))).
Proof.
  intros Hurl Hroute.
  assert (request_hostname env req1 = request_hostname env req2) as Hhost.
  { unfold request_hostname. rewrite Hurl. reflexivity. }
  assert (request_path req1 = request_path req2) as Hpath.
  { unfold request_path. rewrite Hroute. reflexivity. }
  assert (request_query req1 = request_query req2) as Hquery.
  { unfold request_query. rewrite Hurl. reflexivity. }
  destruct (request_hostname env req2) as [h|e] eqn:Hh2.
  2:{ unfold redirect_handler, bind, lift. rewrite Hhost, Hh2.
      repeat split. }
  destruct (resolve_total env w h) as (v & w1 & Hres).
  assert (v = None \/ v = Some "" \/ exists t, v = Some t /\ t <> "") as Hv.
  { destruct v as [t|]; [|auto]. destruct (string_dec t "") as [->|Hne]; eauto. }
  destruct Hv as [Hv|[Hv|(t & -> & Hne)]].
  - rewrite (handler_not_found env req1 w w1 h v Hhost Hres) by auto.
    rewrite (handler_not_found env req2 w w1 h v Hh2 Hres) by auto.
    repeat split.
  - rewrite (handler_not_found env req1 w w1 h v Hhost Hres) by auto.
    rewrite (handler_not_found env req2 w w1 h v Hh2 Hres) by auto.
    repeat split.
  - destruct (normalize_target (pylib env) t) as [[u parsed]|e] eqn:Hn.
    + rewrite (handler_found env req1 w w1 h t u parsed Hhost Hres Hne Hn).
      rewrite (handler_found env req2 w w1 h t u parsed Hh2 Hres Hne Hn).
      rewrite Hpath, Hquery.
      destruct (PyStr.truthy (netloc parsed)); simpl;
        rewrite !store_calls_app; simpl; repeat split.
    + rewrite (handler_raises env req1 w w1 h t e Hhost Hres Hne Hn).
      rewrite (handler_raises env req2 w w1 h t e Hh2 Hres Hne Hn).
      repeat split.
Qed.

Lemma method_and_headers_do_not_matter_witness :
  fst (redirect_handler demo_env
         {| func.method := "DELETE";
            func.url := "https://old.example.com/foo/bar?x=1";
            func.route_params := {[ "route" := "foo/bar" ]};
            func.headers := ∅ |} cold_world)
  = Ok (redirect_response "https://example.org/foo/bar?x=1").
Proof.
  destruct (method_and_headers_do_not_matter demo_env
              {| func.method := "DELETE";
                 func.url := "https://old.example.com/foo/bar?x=1";
                 func.route_params := {[ "route" := "foo/bar" ]};
                 func.headers := ∅ |}
              (get_request "https://old.example.com/foo/bar?x=1" (Some "foo/bar"))
              cold_world) as [H _].
  - reflexivity.
  - reflexivity.
  - rewrite H. vm_compute. reflexivity.
Defined.

(** X12. An invalid target stays cached as found and is checked again on
    every use: the request that fetched it gets the invalid-target 500 and
    leaves the raw value in the cache; a later request served from that
    entry gets the same 500 without a store call, and the error is logged
    again. *)
Theorem invalid_target_cached_and_rechecked
    (env : Env) (req : func.HttpRequest) (w : World) (h target u : string)
    (entity : gmap string string) (parsed : ParseResult) :
  request_hostname env req = Ok h ->
  needs_lookup env w h ->
  table_get_entity env h "default" = Entity entity ->
  entity !! "RedirectUrl" = Some target ->
  target <> "" ->
  normalize_target (pylib env) target = Ok (u, parsed) ->
  netloc parsed = "" ->
  fst (redirect_handler env req w) = Ok (error_response invalid_target_message)
  /\ _cache (snd (redirect_handler env req w)) !! h
     = Some (Some target, wall_clock w)
  /\ (forall w2 recordedAt,
        _cache w2 !! h = Some (Some target, recordedAt) ->
        wall_clock w2 - recordedAt < _CACHE_TTL env ->
        redirect_handler env req w2
        = (Ok (error_response invalid_target_message),
           {| _cache := _cache w2; wall_clock := wall_clock w2;
              trace := trace w2
                       ++ [EvClock (wall_clock w2);
                           EvLog ERROR false
                             ("Invalid redirect URL for host " +:+ h
                              +:+ ": " +:+ u)] |})).
Proof.
  intros Hh Hn He Hurl Hne Hnorm Hnet.
  pose proof (resolve_lookup env w h Hn) as Hr. rewrite He in Hr.
  simpl lookup_value in Hr. rewrite Hurl in Hr.
  split; [|split].
  - rewrite (handler_found env req w _ h target u parsed Hh Hr Hne Hnorm).
    rewrite Hnet. reflexivity.
  - rewrite (handler_found env req w _ h target u parsed Hh Hr Hne Hnorm).
    rewrite Hnet. unfold after_lookup. rewrite He. simpl. rewrite Hurl.
    apply lookup_insert_eq.
  - intros w2 ts Hc Hf.
    rewrite (handler_found env req w2 _ h target u parsed Hh
               (resolve_fresh env w2 h _ ts Hc Hf) Hne Hnorm).
    rewrite Hnet. unfold log_event. simpl. rewrite <- app_assoc. reflexivity.
Qed.

Lemma invalid_target_cached_and_rechecked_witness :
  fst (redirect_handler demo_env (get_request "https://path.example.com/" None)
         cold_world)
  = Ok (error_response invalid_target_message)
  /\ _cache (snd (redirect_handler demo_env
                    (get_request "https://path.example.com/" None) cold_world))
       !! "path.example.com"
     = Some (Some "/landing", 1000).
Proof.
  destruct (invalid_target_cached_and_rechecked demo_env
              (get_request "https://path.example.com/" None) cold_world
              "path.example.com" "/landing" "https:///landing"
              {[ "RedirectUrl" := "/landing" ]}
              {| scheme := "https"; netloc := ""; path := "/landing";
                 params := ""; query := ""; fragment := "" |})
    as (H1 & H2 & _); try (vm_compute; reflexivity); try discriminate.
  - left. reflexivity.
  - split; [exact H1 | exact H2].
Defined.

(** X13. A stored target that [urlparse] rejects (after the [https://]
    prefix where it applies) makes the handler raise [ValueError] instead
    of answering; the value has been cached by then, so every request
    served from that entry raises again, without a store call. *)
Theorem rejected_target_raises_and_stays_cached
    (env : Env) (req : func.HttpRequest) (w : World) (h target : string)
    (entity : gmap string string) (e : exn) :
  request_hostname env req = Ok h ->
  needs_lookup env w h ->
  table_get_entity env h "default" = Entity entity ->
  entity !! "RedirectUrl" = Some target ->
  target <> "" ->
  normalize_target (pylib env) target = Raise e ->
  fst (redirect_handler env req w) = Raise e
  /\ _cache (snd (redirect_handler env req w)) !! h
     = Some (Some target, wall_clock w)
  /\ (forall w2 recordedAt,
        _cache w2 !! h = Some (Some target, recordedAt) ->
        wall_clock w2 - recordedAt < _CACHE_TTL env ->
        fst (redirect_handler env req w2) = Raise e
        /\ store_calls (trace (snd (redirect_handler env req w2)))
           = store_calls (trace w2)).
Proof.
  intros Hh Hn He Hurl Hne Hnorm.
  pose proof (resolve_lookup env w h Hn) as Hr. rewrite He in Hr.
  simpl lookup_value in Hr. rewrite Hurl in Hr.
  rewrite (handler_raises env req w _ h target e Hh Hr Hne Hnorm).
  split; [reflexivity|]. split.
  - unfold after_lookup. rewrite He. simpl. rewrite Hurl.
    apply lookup_insert_eq.
  - intros w2 ts Hc Hf.
    rewrite (handler_raises env req w2 _ h target e Hh
               (resolve_fresh env w2 h _ ts Hc Hf) Hne Hnorm).
    simpl. rewrite store_calls_app. simpl. split; [reflexivity | lia].
Qed.

Lemma rejected_target_raises_and_stays_cached_witness :
  fst (redirect_handler edge_env (get_request "https://bracket.example.com/" None)
         cold_world)
  = Raise ValueError
  /\ _cache (snd (redirect_handler edge_env
                    (get_request "https://bracket.example.com/" None) cold_world))
       !! "bracket.example.com"
     = Some (Some "[", 1000).
Proof.
  destruct (rejected_target_raises_and_stays_cached edge_env
              (get_request "https://bracket.example.com/" None) cold_world
              "bracket.example.com" "[" {[ "RedirectUrl" := "[" ]} ValueError)
    as (H1 & H2 & _); try (vm_compute; reflexivity); try discriminate.
  - left. reflexivity.
  - split; [exact H1 | exact H2].
Defined.

(** ** [urlsplit] step by step *)

Lemma urlsplit_steps_eq (lib : PyLib) (url : string) :
  UrlParse.urlsplit lib url = urlsplit_steps lib url.
Proof.
  unfold UrlParse.urlsplit, urlsplit_steps, split_scheme.
  set (u := UrlParse.remove_unsafe
              (PyStr.lstrip UrlParse.c0_control_or_space url)).
  destruct (match PyStr.partition ":" u with
            | Some (String c0 pre, rest) =>
                if PyStr.is_ascii_alpha c0
                   && PyStr.all_chars UrlParse.scheme_char (String c0 pre)
                then (PyStr.lower (String c0 pre), rest)
                else (EmptyString, u)
            | _ => (EmptyString, u)
            end) as [sc rest].
  destruct rest as [|a rest]; [reflexivity|].
  destruct a as [[] [] [] [] [] [] [] []]; try reflexivity.
  destruct rest as [|b rest]; [reflexivity|].
  destruct b as [[] [] [] [] [] [] [] []]; reflexivity.
Qed.

Lemma urlparse_of_urlsplit (lib : PyLib) (url sc nl pa q f : string) :
  UrlParse.urlsplit lib url = Ok (sc, nl, pa, q, f) ->
  exists p, UrlParse.urlparse lib url = Ok p /\ scheme p = sc /\ netloc p = nl.
Proof.
  intros H. unfold UrlParse.urlparse. rewrite H.
  destruct (bool_decide (sc ∈ UrlParse.uses_params) && PyStr.contains ";" pa);
    [destruct (UrlParse._splitparams pa)|]; eexists; repeat split.
Qed.

Lemma urlparse_raises_of_urlsplit (lib : PyLib) (url : string) (e : exn) :
  UrlParse.urlsplit lib url = Raise e -> UrlParse.urlparse lib url = Raise e.
Proof. intros H. unfold UrlParse.urlparse. rewrite H. reflexivity. Qed.

Section AllChars.
Variable P : ascii -> bool.

Lemma all_chars_cons (c : ascii) (s : string) :
  PyStr.all_chars P (String c s) = P c && PyStr.all_chars P s.
Proof. reflexivity. Qed.

Lemma all_chars_append (a b : string) :
  PyStr.all_chars P (a +:+ b) = PyStr.all_chars P a && PyStr.all_chars P b.
Proof.
  induction a as [|c a IH]; [reflexivity|].
  rewrite append_cons, !all_chars_cons, IH, andb_assoc. reflexivity.
Qed.

Lemma all_chars_lstrip (q : ascii -> bool) (s : string) :
  PyStr.all_chars P s = true -> PyStr.all_chars P (PyStr.lstrip q s) = true.
Proof.
  induction s as [|c s IH]; [reflexivity|].
  cbn [PyStr.lstrip]. destruct (q c); [|tauto].
  rewrite all_chars_cons. intros H. apply andb_true_iff in H as [_ H]. auto.
Qed.

Lemma all_chars_remove_char (d : ascii) (s : string) :
  PyStr.all_chars P s = true -> PyStr.all_chars P (PyStr.remove_char d s) = true.
Proof.
  induction s as [|c s IH]; [reflexivity|].
  cbn [PyStr.remove_char]. rewrite all_chars_cons. intros H.
  apply andb_true_iff in H as [Hc H].
  destruct (Ascii.eqb d c); [auto|].
  rewrite all_chars_cons, Hc. simpl. auto.
Qed.

Lemma all_chars_partition (d : ascii) (s a b : string) :
  PyStr.partition d s = Some (a, b) ->
  PyStr.all_chars P s = true ->
  PyStr.all_chars P a = true /\ PyStr.all_chars P b = true.
Proof.
  revert a b. induction s as [|c s IH]; intros a b; [discriminate|].
  cbn [PyStr.partition]. rewrite all_chars_cons.
  destruct (Ascii.eqb d c).
  - intros [= <- <-] H. apply andb_true_iff in H as [_ H]. split; [reflexivity | exact H].
  - destruct (PyStr.partition d s) as [[x y]|]; [|discriminate].
    intros [= <- <-] H. apply andb_true_iff in H as [Hc H].
    destruct (IH x y eq_refl H) as [Hx Hy].
    rewrite all_chars_cons, Hc, Hx. split; [reflexivity | exact Hy].
Qed.

Lemma all_chars_break_at (stop : ascii -> bool) (s a b : string) :
  PyStr.break_at stop s = (a, b) ->
  PyStr.all_chars P s = true ->
  PyStr.all_chars P a = true /\ PyStr.all_chars P b = true.
Proof.
  revert a b. induction s as [|c s IH]; intros a b.
  - intros [= <- <-] _. split; reflexivity.
  - cbn [PyStr.break_at]. destruct (stop c).
    + intros [= <- <-] H. split; [reflexivity | exact H].
    + destruct (PyStr.break_at stop s) as [x y].
      intros [= <- <-]. rewrite !all_chars_cons. intros H.
      apply andb_true_iff in H as [Hc H].
      destruct (IH x y eq_refl H) as [Hx Hy]. rewrite Hc, Hx.
      split; [reflexivity | exact Hy].
Qed.

Lemma all_chars_split_scheme (url sc rest : string) :
  split_scheme url = (sc, rest) ->
  PyStr.all_chars P url = true -> PyStr.all_chars P rest = true.
Proof.
  unfold split_scheme.
  destruct (PyStr.partition ":" url) as [[pre post]|] eqn:Hp.
  - destruct pre as [|c0 pre].
    + intros [= <- <-]. auto.
    + destruct (PyStr.is_ascii_alpha c0
                && PyStr.all_chars UrlParse.scheme_char (String c0 pre)).
      * intros [= <- <-] H. apply (all_chars_partition _ _ _ _ Hp H).
      * intros [= <- <-]. auto.
  - intros [= <- <-]. auto.
Qed.

End AllChars.

Lemma after_slashes_some (url rest : string) :
  after_slashes url = Some rest -> url = String "/" (String "/" rest).
Proof.
  destruct url as [|a url]; [discriminate|].
  destruct a as [[] [] [] [] [] [] [] []]; try discriminate.
  destruct url as [|b url]; [discriminate|].
  destruct b as [[] [] [] [] [] [] [] []]; try discriminate.
  intros [= ->]. reflexivity.
Qed.


Lemma plain_has_no_bracket (s : string) :
  PyStr.all_chars plain_char s = true ->
  PyStr.contains "[" s = false /\ PyStr.contains "]" s = false
  /\ PyStr.isascii s = true.
Proof.
  induction s as [|c s IH]; [repeat split|].
  rewrite all_chars_cons. intros H. apply andb_true_iff in H as [Hc H].
  destruct (IH H) as (H1 & H2 & H3).
  cbn [PyStr.contains PyStr.isascii]. rewrite H1, H2, H3.
  unfold plain_char in Hc.
  apply andb_true_iff in Hc as [Hc Hr]. apply andb_true_iff in Hc as [Ha Hl].
  rewrite Ha. apply negb_true_iff in Hl, Hr.
  rewrite (Ascii.eqb_sym "[" c), (Ascii.eqb_sym "]" c), Hl, Hr.
  repeat split.
Qed.

Lemma checknetloc_plain (lib : PyLib) (nl : string) :
  PyStr.isascii nl = true -> UrlParse._checknetloc lib nl = Ok tt.
Proof.
  intros H. unfold UrlParse._checknetloc. rewrite H, orb_true_r. reflexivity.
Qed.

Lemma split_tail_plain (lib : PyLib) (sc nl url : string) :
  PyStr.isascii nl = true ->
  exists pa q f, split_tail lib sc nl url = Ok (sc, nl, pa, q, f).
Proof.
  intros H. unfold split_tail.
  destruct (match PyStr.partition "#" url with
            | Some (u, f) => (u, f)
            | None => (url, EmptyString)
            end) as [u f].
  destruct (match PyStr.partition "?" u with
            | Some (u', q) => (u', q)
            | None => (u, EmptyString)
            end) as [u' q].
  rewrite (checknetloc_plain lib nl H). eauto.
Qed.

(** [urlsplit] accepts every URL made of ASCII characters other than
    brackets. *)
Lemma urlsplit_plain (lib : PyLib) (url : string) :
  PyStr.all_chars plain_char url = true ->
  exists sc nl pa q f, UrlParse.urlsplit lib url = Ok (sc, nl, pa, q, f).
Proof.
  intros H. rewrite urlsplit_steps_eq. unfold urlsplit_steps.
  assert (PyStr.all_chars plain_char
            (UrlParse.remove_unsafe
               (PyStr.lstrip UrlParse.c0_control_or_space url)) = true) as Hu.
  { unfold UrlParse.remove_unsafe.
    repeat apply all_chars_remove_char. apply all_chars_lstrip, H. }
  destruct (split_scheme _) as [sc rest] eqn:Hs.
  pose proof (all_chars_split_scheme plain_char _ _ _ Hs Hu) as Hrest.
  destruct (after_slashes rest) as [r|] eqn:Ha.
  - apply after_slashes_some in Ha. subst rest.
    rewrite !all_chars_cons in Hrest.
    apply andb_true_iff in Hrest as [_ Hrest].
    apply andb_true_iff in Hrest as [_ Hrest].
    unfold UrlParse._splitnetloc.
    destruct (PyStr.break_at _ r) as [nl u] eqn:Hb.
    destruct (all_chars_break_at plain_char _ _ _ _ Hb Hrest) as [Hnl _].
    destruct (plain_has_no_bracket nl Hnl) as (H1 & H2 & H3).
    rewrite H1, H2. cbn [andb orb negb].
    destruct (split_tail_plain lib sc nl u H3) as (pa & q & f & ->). eauto 10.
  - destruct (split_tail_plain lib sc EmptyString rest eq_refl)
      as (pa & q & f & ->). eauto 10.
Qed.

Lemma urlparse_plain (lib : PyLib) (url : string) :
  PyStr.all_chars plain_char url = true ->
  exists p, UrlParse.urlparse lib url = Ok p.
Proof.
  intros H. destruct (urlsplit_plain lib url H) as (sc & nl & pa & q & f & Hs).
  destruct (urlparse_of_urlsplit lib url _ _ _ _ _ Hs) as (p & Hp & _). eauto.
Qed.

Lemma all_chars_impl (P Q : ascii -> bool) (s : string) :
  (forall c, P c = true -> Q c = true) ->
  PyStr.all_chars P s = true -> PyStr.all_chars Q s = true.
Proof.
  intros HPQ. induction s as [|c s IH]; [reflexivity|].
  rewrite !all_chars_cons. intros H. apply andb_true_iff in H as [Hc H].
  rewrite (HPQ c Hc), (IH H). reflexivity.
Qed.

Lemma remove_char_id (d : ascii) (s : string) :
  PyStr.all_chars (fun c => negb (Ascii.eqb d c)) s = true ->
  PyStr.remove_char d s = s.
Proof.
  induction s as [|c s IH]; [reflexivity|].
  rewrite all_chars_cons. intros H. apply andb_true_iff in H as [Hc H].
  cbn [PyStr.remove_char]. apply negb_true_iff in Hc. rewrite Hc, (IH H).
  reflexivity.
Qed.

Lemma remove_unsafe_id (s : string) :
  PyStr.all_chars (fun c => negb (unsafe_char c)) s = true ->
  UrlParse.remove_unsafe s = s.
Proof.
  intros H. unfold UrlParse.remove_unsafe.
  rewrite (remove_char_id "009" s), (remove_char_id "013" s),
    (remove_char_id "010" s); [reflexivity| | |];
    refine (all_chars_impl _ _ s _ H);
    intros c; destruct c as [[] [] [] [] [] [] [] []]; vm_compute; congruence.
Qed.

Lemma lstrip_noop (c : ascii) (s : string) :
  UrlParse.c0_control_or_space c = false ->
  PyStr.lstrip UrlParse.c0_control_or_space (String c s) = String c s.
Proof. intros H. cbn [PyStr.lstrip]. rewrite H. reflexivity. Qed.

Lemma partition_append (d : ascii) (a b : string) :
  PyStr.contains d a = false ->
  PyStr.partition d (a +:+ String d b) = Some (a, b).
Proof.
  induction a as [|c a IH].
  - intros _. change (EmptyString +:+ String d b) with (String d b).
    cbn [PyStr.partition]. rewrite Ascii.eqb_refl. reflexivity.
  - cbn [PyStr.contains]. intros H. apply orb_false_iff in H as [Hc H].
    rewrite append_cons. cbn [PyStr.partition]. rewrite Hc, (IH H).
    reflexivity.
Qed.





(** A value put after [https://] parses with scheme [https] and with the
    authority that ends at the first [/], [?] or [#] of the value. *)
Lemma urlparse_https_prefixed (lib : PyLib) (target : string) :
  PyStr.all_chars plain_char target = true ->
  PyStr.all_chars (fun c => negb (unsafe_char c)) target = true ->
  exists p,
    UrlParse.urlparse lib ("https://" +:+ target) = Ok p
    /\ scheme p = "https"
    /\ netloc p = fst (PyStr.break_at authority_end target).
Proof.
  intros Hplain Hsafe.
  destruct (PyStr.break_at authority_end target) as [nl u] eqn:Hb.
  destruct (all_chars_break_at plain_char _ _ _ _ Hb Hplain) as [Hnl _].
  destruct (plain_has_no_bracket nl Hnl) as (H1 & H2 & H3).
  destruct (split_tail_plain lib "https" nl u H3) as (pa & q & f & Htail).
  apply (urlparse_of_urlsplit lib _ _ _ pa q f).
  rewrite urlsplit_steps_eq. unfold urlsplit_steps.
  change ("https://" +:+ target)
    with (String "h" ("ttps://" +:+ target)).
  rewrite (lstrip_noop "h" _ eq_refl).
  change (String "h" ("ttps://" +:+ target)) with ("https://" +:+ target).
  rewrite remove_unsafe_id.
  2:{ rewrite all_chars_append, Hsafe. reflexivity. }
  change (split_scheme ("https://" +:+ target))
    with ("https", String "/" (String "/" target)).
  cbn [after_slashes]. unfold UrlParse._splitnetloc.
  change (PyStr.break_at _ target) with (PyStr.break_at authority_end target).
  rewrite Hb, H1, H2. cbn [andb orb negb fst]. exact Htail.
Qed.

(** ** The handler: which targets are usable *)



(** X15. For a stored value without scheme (ASCII, no brackets, no tab or
    line break) the [https://] prefix decides as follows: a value that
    starts with [/], [?] or [#] has an empty netloc and gets the
    invalid-target 500; for every other value the handler composes the
    Location with [https://] in front and answers 307, unless the Location
    holds CR or LF (from the route or the query), in which case the
    response constructor raises [ValueError]. *)
Theorem schemeless_target_invalid_iff_leading_delimiter
    (env : Env) (req : func.HttpRequest) (w : World) (h : string)
    (c : ascii) (t : string) (parsed0 : ParseResult) :
  request_hostname env req = Ok h ->
  fst (_get_redirect_url env h w) = Ok (Some (String c t)) ->
  PyStr.all_chars plain_char (String c t) = true ->
  PyStr.all_chars (fun c => negb (unsafe_char c)) (String c t) = true ->
  UrlParse.urlparse (pylib env) (String c t) = Ok parsed0 ->
  scheme parsed0 = "" ->
  fst (redirect_handler env req w)
  = if authority_end c
    then Ok (error_response invalid_target_message)
    else if func.header_value_ok
              (spec_location ("https://" +:+ String c t)
                 (request_path req) (request_query req))
         then Ok (redirect_response
                    (spec_location ("https://" +:+ String c t)
                       (request_path req) (request_query req)))
         else Raise ValueError.
Proof.
  intros Hh Hr Hplain Hsafe Hp0 Hsc.
  destruct (urlparse_https_prefixed (pylib env) (String c t) Hplain Hsafe)
    as (p & Hp & _ & Hnl).
  assert (normalize_target (pylib env) (String c t)
          = Ok ("https://" +:+ String c t, p)) as Hnorm.
  { unfold normalize_target. rewrite Hp0, Hsc, Hp. reflexivity. }
  rewrite (handler_found env req w _ h _ _ p Hh
             (resolver_result_world env w h _ Hr) ltac:(discriminate) Hnorm).
  rewrite Hnl. cbn [PyStr.break_at].
  destruct (authority_end c); [reflexivity|].
  destruct (PyStr.break_at authority_end t). cbv zeta. cbn [fst PyStr.truthy].
  apply new_redirect_response.
Qed.

Lemma schemeless_target_invalid_iff_leading_delimiter_witness :
  fst (redirect_handler demo_env
         (get_request "https://path.example.com/a" (Some "a")) cold_world)
  = Ok (error_response invalid_target_message)
  /\ fst (redirect_handler demo_env
            (get_request "https://old.example.com/a" (Some "a")) cold_world)
     = Ok (redirect_response "https://example.org/a").
Proof.
  split.
  - apply (schemeless_target_invalid_iff_leading_delimiter demo_env _ cold_world
             "path.example.com" "/" "landing"
             {| scheme := ""; netloc := ""; path := "/landing";
                params := ""; query := ""; fragment := "" |});
      vm_compute; reflexivity.
  - rewrite (schemeless_target_invalid_iff_leading_delimiter demo_env _ cold_world
               "old.example.com" "e" "xample.org"
               {| scheme := ""; netloc := ""; path := "example.org";
                  params := ""; query := ""; fragment := "" |});
      vm_compute; reflexivity.
Defined.

Lemma header_value_ok_spec (v : string) :
  func.header_value_ok v = true
  <-> PyStr.contains "010" v = false /\ PyStr.contains "013" v = false.
Proof.
  unfold func.header_value_ok. rewrite negb_true_iff, orb_false_iff. tauto.
Qed.

Lemma contains_append (d : ascii) (a b : string) :
  PyStr.contains d (a +:+ b) = PyStr.contains d a || PyStr.contains d b.
Proof.
  induction a as [|c a IH]; [reflexivity|].
  rewrite append_cons. cbn [PyStr.contains]. rewrite IH, orb_assoc.
  reflexivity.
Qed.

Lemma contains_rstrip (d : ascii) (p : ascii -> bool) (s : string) :
  PyStr.contains d s = false -> PyStr.contains d (PyStr.rstrip p s) = false.
Proof.
  induction s as [|c s IH]; [reflexivity|].
  cbn [PyStr.contains PyStr.rstrip]. intros H.
  apply orb_false_iff in H as [Hc H]. specialize (IH H).
  destruct (PyStr.rstrip p s) as [|x r].
  - destruct (p c); [reflexivity|].
    cbn [PyStr.contains]. rewrite Hc. reflexivity.
  - cbn [PyStr.contains] in IH |- *. rewrite Hc. exact IH.
Qed.

Lemma contains_partition_right (d c : ascii) (s a b : string) :
  PyStr.partition c s = Some (a, b) ->
  PyStr.contains d s = false -> PyStr.contains d b = false.
Proof.
  revert a b. induction s as [|x s IH]; intros a b; [discriminate|].
  cbn [PyStr.partition PyStr.contains]. intros Hp H.
  apply orb_false_iff in H as [_ H].
  destruct (Ascii.eqb c x).
  - injection Hp as _ <-. exact H.
  - destruct (PyStr.partition c s) as [[y z]|]; [|discriminate].
    injection Hp as _ <-. apply (IH y z eq_refl H).
Qed.

Lemma header_value_ok_append (a b : string) :
  func.header_value_ok (a +:+ b)
  = func.header_value_ok a && func.header_value_ok b.
Proof.
  unfold func.header_value_ok. rewrite !contains_append.
  destruct (PyStr.contains "010" a), (PyStr.contains "013" a),
    (PyStr.contains "010" b), (PyStr.contains "013" b); reflexivity.
Qed.

(** A Location composed of acceptable parts is acceptable. *)
Lemma header_value_ok_location (u pth q : string) :
  func.header_value_ok u = true ->
  func.header_value_ok pth = true ->
  func.header_value_ok q = true ->
  func.header_value_ok (spec_location u pth q) = true.
Proof.
  intros Hu Hp Hq. unfold spec_location.
  rewrite !header_value_ok_append.
  assert (func.header_value_ok (PyStr.rstrip (Ascii.eqb "/") u) = true) as ->.
  { apply header_value_ok_spec in Hu as [H1 H2]. apply header_value_ok_spec.
    split; apply contains_rstrip; assumption. }
  destruct (PyStr.truthy pth), (PyStr.truthy q);
    rewrite ?header_value_ok_append, ?Hp, ?Hq; reflexivity.
Qed.

Lemma header_value_ok_query (req : func.HttpRequest) :
  func.header_value_ok (func.url req) = true ->
  func.header_value_ok (request_query req) = true.
Proof.
  intros H. apply header_value_ok_spec in H as [H1 H2].
  unfold request_query, PyStr.split_once.
  destruct (PyStr.partition "?" (func.url req)) as [[a b]|] eqn:Hp;
    [|reflexivity].
  apply header_value_ok_spec.
  split; eapply contains_partition_right; eassumption.
Qed.

(** X16. When the request URL and the resolved target consist of ASCII
    characters other than brackets, and neither they nor the route
    parameter hold CR or LF, nothing raises: [urlparse] accepts both
    strings, the response constructor accepts the Location, and the
    handler returns a response, with status 307 or 500. *)
Theorem plain_urls_always_get_a_response
    (env : Env) (req : func.HttpRequest) (w : World) :
  PyStr.all_chars plain_char (func.url req) = true ->
  func.header_value_ok (func.url req) = true ->
  func.header_value_ok (request_path req) = true ->
  (forall h target,
      request_hostname env req = Ok h ->
      fst (_get_redirect_url env h w) = Ok (Some target) ->
      PyStr.all_chars plain_char target = true
      /\ func.header_value_ok target = true) ->
  exists r, fst (redirect_handler env req w) = Ok r
            /\ (func.status_code r = 307 \/ func.status_code r = 500).
Proof.
  intros Hurl Hurl_ok Hpath_ok Htarget.
  assert (exists r, fst (redirect_handler env req w) = Ok r) as [r Hr].
  { destruct (urlparse_plain (pylib env) _ Hurl) as [p Hp].
    assert (request_hostname env req
            = Ok (PyStr.split_first ":" (PyStr.lower (netloc p)))) as Hh.
    { unfold request_hostname. rewrite Hp. reflexivity. }
    destruct (resolve_total env w (PyStr.split_first ":" (PyStr.lower (netloc p))))
      as (v & w1 & Hres).
    destruct v as [target|].
    2:{ rewrite (handler_not_found env req w w1 _ None Hh Hres) by auto. eauto. }
    destruct (string_dec target "") as [->|Hne].
    { rewrite (handler_not_found env req w w1 _ (Some "") Hh Hres) by auto.
      eauto. }
    assert (PyStr.all_chars plain_char target = true
            /\ func.header_value_ok target = true) as [Hplain Hok].
    { apply (Htarget _ _ Hh). rewrite Hres. reflexivity. }
    assert (exists u parsed,
               normalize_target (pylib env) target = Ok (u, parsed)
               /\ func.header_value_ok u = true)
      as (u & parsed & Hn & Hu).
    { unfold normalize_target.
      destruct (urlparse_plain (pylib env) _ Hplain) as [p0 ->].
      destruct (PyStr.truthy (scheme p0)); [eauto|].
      destruct (urlparse_plain (pylib env) ("https://" +:+ target)) as [p1 ->].
      - rewrite all_chars_append, Hplain. reflexivity.
      - exists ("https://" +:+ target), p1. split; [reflexivity|].
        rewrite header_value_ok_append, Hok. reflexivity. }
    rewrite (handler_found env req w w1 _ target u parsed Hh Hres Hne Hn).
    destruct (PyStr.truthy (netloc parsed)); cbv zeta; cbn [fst]; [|eauto].
    rewrite new_redirect_response.
    rewrite (header_value_ok_location u _ _ Hu Hpath_ok
               (header_value_ok_query req Hurl_ok)).
    eauto. }
  exists r. split; [exact Hr|].
  destruct (handler_responses env req w r Hr) as [->|[->|[loc ->]]];
    simpl; auto.
Qed.

Lemma plain_urls_always_get_a_response_witness :
  exists r,
    fst (redirect_handler demo_env
           (get_request "https://old.example.com/a?b=c" (Some "a")) warm_world)
    = Ok r
    /\ (func.status_code r = 307 \/ func.status_code r = 500).
Proof.
  apply plain_urls_always_get_a_response.
  - vm_compute. reflexivity.
  - vm_compute. reflexivity.
  - vm_compute. reflexivity.
  - intros h target Hh Hr. vm_compute in Hh. injection Hh as <-.
    vm_compute in Hr. injection Hr as <-. split; vm_compute; reflexivity.
Defined.

(** ** The handler: one resolution per request *)

(** Apart from its own log record the handler leaves the world as the
    resolver left it. *)
Lemma handler_world (env : Env) (req : func.HttpRequest) (w : World) (h : string) :
  request_hostname env req = Ok h ->
  exists log,
    snd (redirect_handler env req w)
    = {| _cache := _cache (snd (_get_redirect_url env h w));
         wall_clock := wall_clock (snd (_get_redirect_url env h w));
         trace := trace (snd (_get_redirect_url env h w)) ++ log |}
    /\ store_calls log = 0%nat /\ clock_reads log = 0%nat.
Proof.
  intros Hh.
  destruct (resolve_total env w h) as (v & w1 & Hres). rewrite Hres. simpl.
  assert (w1 = {| _cache := _cache w1; wall_clock := wall_clock w1;
                  trace := trace w1 ++ [] |}) as Hw1.
  { rewrite app_nil_r. destruct w1; reflexivity. }
  destruct v as [target|].
  2:{ rewrite (handler_not_found env req w w1 h None Hh Hres) by auto.
      exists []. simpl. rewrite <- Hw1. repeat split. }
  destruct (string_dec target "") as [->|Hne].
  { rewrite (handler_not_found env req w w1 h (Some "") Hh Hres) by auto.
    exists []. simpl. rewrite <- Hw1. repeat split. }
  destruct (normalize_target (pylib env) target) as [[u parsed]|e] eqn:Hn.
  - rewrite (handler_found env req w w1 h target u parsed Hh Hres Hne Hn).
    destruct (PyStr.truthy (netloc parsed)); simpl; eexists; repeat split.
  - rewrite (handler_raises env req w w1 h target e Hh Hres Hne Hn).
    exists []. simpl. rewrite <- Hw1. repeat split.
Qed.

(** X17. A request whose URL parses reads the clock exactly once and makes
    at most one store call; the cache it leaves is the one the resolver
    left, the handler itself writes nothing to it. *)
Theorem one_resolution_per_request
    (env : Env) (req : func.HttpRequest) (w : World) (h : string) :
  request_hostname env req = Ok h ->
  clock_reads (trace (snd (redirect_handler env req w)))
  = S (clock_reads (trace w))
  /\ (store_calls (trace (snd (redirect_handler env req w)))
      <= S (store_calls (trace w)))%nat
  /\ _cache (snd (redirect_handler env req w))
     = _cache (snd (_get_redirect_url env h w)).
Proof.
  intros Hh. destruct (handler_world env req w h Hh) as (log & -> & Hs & Hc).
  simpl. rewrite clock_reads_app, store_calls_app, Hs, Hc.
  destruct (resolve_cases env w h) as [(v & ts & _ & _ & ->)|[_ ->]];
    unfold after_lookup; simpl;
    rewrite clock_reads_app, store_calls_app; simpl;
    rewrite ?clock_reads_lookup_log, ?store_calls_lookup_log;
    repeat split; lia.
Qed.

Lemma one_resolution_per_request_witness :
  clock_reads (trace (snd (redirect_handler demo_env
                             (get_request "https://old.example.com/" None)
                             cold_world)))
  = 1%nat
  /\ (store_calls (trace (snd (redirect_handler demo_env
                                 (get_request "https://old.example.com/" None)
                                 cold_world)))
      <= 1)%nat.
Proof.
  destruct (one_resolution_per_request demo_env
              (get_request "https://old.example.com/" None) cold_world
              "old.example.com") as (H1 & H2 & _).
  - vm_compute. reflexivity.
  - split; [exact H1 | exact H2].
Defined.

(** X18. Requests whose authorities differ only in the case of the host
    and in the port share one cache entry: after a request that fetched a
    record or the not-found signal, a request for the same host in other
    case and with another port, started less than TTL later, makes no
    store call. *)
Theorem same_host_shares_cache_entry
    (env : Env) (req1 req2 : func.HttpRequest) (w w2 : World)
    (p1 p2 : ParseResult) (host1 host2 : string) (port1 port2 : option string) :
  UrlParse.urlparse (pylib env) (func.url req1) = Ok p1 ->
  UrlParse.urlparse (pylib env) (func.url req2) = Ok p2 ->
  netloc p1 = match port1 with
              | Some p => host1 +:+ String ":" p
              | None => host1
              end ->
  netloc p2 = match port2 with
              | Some p => host2 +:+ String ":" p
              | None => host2
              end ->
  PyStr.contains ":" host1 = false ->
  PyStr.contains ":" host2 = false ->
  PyStr.lower host1 = PyStr.lower host2 ->
  needs_lookup env w (PyStr.lower host1) ->
  table_get_entity env (PyStr.lower host1) "default" <> OtherException ->
  _cache w2 = _cache (snd (redirect_handler env req1 w)) ->
  wall_clock w2 - wall_clock w < _CACHE_TTL env ->
  request_hostname env req2 = request_hostname env req1
  /\ store_calls (trace (snd (redirect_handler env req2 w2)))
     = store_calls (trace w2).
Proof.
  intros Hp1 Hp2 Hn1 Hn2 Hc1 Hc2 Hlow Hneed Hok Hcache Hclock.
  pose proof (request_hostname_plain_authority env req1 p1 host1 port1
                Hp1 Hn1 Hc1) as Hh1.
  pose proof (request_hostname_plain_authority env req2 p2 host2 port2
                Hp2 Hn2 Hc2) as Hh2.
  rewrite <- Hlow in Hh2. split; [congruence|].
  destruct (handler_world env req2 w2 _ Hh2) as (log & -> & Hs & _).
  destruct (handler_world env req1 w _ Hh1) as (log1 & Hw1 & _).
  rewrite Hw1 in Hcache. simpl in Hcache.
  assert (_cache w2 !! PyStr.lower host1
          = Some (lookup_value (table_get_entity env (PyStr.lower host1) "default"),
                  wall_clock w)) as Hentry.
  { rewrite Hcache, (resolve_lookup env w _ Hneed). unfold after_lookup. simpl.
    destruct (table_get_entity env (PyStr.lower host1) "default");
      try congruence; apply lookup_insert_eq. }
  rewrite (resolve_fresh env w2 _ _ _ Hentry Hclock). simpl.
  rewrite !store_calls_app, Hs. simpl. lia.
Qed.

Lemma same_host_shares_cache_entry_witness :
  store_calls
    (trace (snd (redirect_handler demo_env
                   (get_request "http://OLD.Example.Com:8080/x" (Some "x"))
                   (snd (redirect_handler demo_env
                           (get_request "https://old.example.com/" None)
                           cold_world)))))
  = 1%nat.
Proof.
  destruct (same_host_shares_cache_entry demo_env
              (get_request "https://old.example.com/" None)
              (get_request "http://OLD.Example.Com:8080/x" (Some "x"))
              cold_world
              (snd (redirect_handler demo_env
                      (get_request "https://old.example.com/" None) cold_world))
              {| scheme := "https"; netloc := "old.example.com"; path := "/";
                 params := ""; query := ""; fragment := "" |}
              {| scheme := "http"; netloc := "OLD.Example.Com:8080"; path := "/x";
                 params := ""; query := ""; fragment := "" |}
              "old.example.com" "OLD.Example.Com" None (Some "8080"))
    as [_ H].
  1-11: try (vm_compute; reflexivity).
  - left. reflexivity.
  - vm_compute. discriminate.
  - rewrite H. vm_compute. reflexivity.
Defined.

(** X19. Every response the handler returns is either a 307 with an empty
    body and the single header [Location], or a 500 without headers whose
    body is one of the two configuration-error messages. *)
Theorem responses_are_307_or_500
    (env : Env) (req : func.HttpRequest) (w : World) (r : func.HttpResponse) :
  fst (redirect_handler env req w) = Ok r ->
  (func.status_code r = 307 /\ func.body r = ""
   /\ exists location,
        func.response_headers r = {[ "Location" := location ]})
  \/ (func.status_code r = 500 /\ func.response_headers r = ∅
      /\ (func.body r = not_found_message
          \/ func.body r = invalid_target_message)).
Proof.
  intros Hr.
  destruct (handler_responses env req w r Hr) as [->|[->|[loc ->]]]; simpl.
  - right. auto.
  - right. auto.
  - left. eauto.
Qed.

Lemma responses_are_307_or_500_witness :
  func.status_code (redirect_response "https://example.org/a") = 307
  /\ func.response_headers (redirect_response "https://example.org/a")
     = {[ "Location" := "https://example.org/a" ]}.
Proof.
  destruct (responses_are_307_or_500 demo_env
              (get_request "https://old.example.com/a" (Some "a")) cold_world
              (redirect_response "https://example.org/a"))
    as [(H1 & _ & loc & H2)|(H1 & _)].
  - vm_compute. reflexivity.
  - split; reflexivity.
  - simpl in H1. discriminate.
Defined.

(** ** The composed Location *)

Lemma rstrip_last (p : ascii -> bool) (s : string) (c : ascii) :
  last_char (PyStr.rstrip p s) = Some c -> p c = false.
Proof.
  induction s as [|d s IH]; [discriminate|].
  cbn [PyStr.rstrip].
  destruct (PyStr.rstrip p s) as [|x r] eqn:Hr.
  - destruct (p d) eqn:Hd; [discriminate|].
    cbn [last_char]. intros [= <-]. exact Hd.
  - exact IH.
Qed.

Lemma rstrip_decompose (p : ascii -> bool) (s : string) :
  exists t, s = PyStr.rstrip p s +:+ t /\ PyStr.all_chars p t = true.
Proof.
  induction s as [|d s (t & Hs & Ht)].
  - exists EmptyString. split; reflexivity.
  - cbn [PyStr.rstrip].
    destruct (PyStr.rstrip p s) as [|x r] eqn:Hr.
    + change (EmptyString +:+ t) with t in Hs. subst t.
      destruct (p d) eqn:Hd.
      * exists (String d s). split; [reflexivity|].
        rewrite all_chars_cons, Hd, Ht. reflexivity.
      * exists s. split; [reflexivity | exact Ht].
    + exists t. split; [|exact Ht].
      rewrite append_cons. congruence.
Qed.

(** X20. When the composed Location holds neither CR nor LF, the Location
    of the redirect is the target without its trailing slashes, followed by
    [/] + path and [?] + query where these are non-empty: the part before
    an appended path never ends in a slash, so no doubled slash arises at
    the join, and with empty path and query the Location is that part
    alone and has no trailing slash. *)
Theorem location_has_no_slash_at_the_join
    (env : Env) (req : func.HttpRequest) (w : World)
    (h target u : string) (parsed0 parsed : ParseResult) :
  request_hostname env req = Ok h ->
  fst (_get_redirect_url env h w) = Ok (Some target) ->
  target <> "" ->
  UrlParse.urlparse (pylib env) target = Ok parsed0 ->
  u = (if PyStr.truthy (scheme parsed0) then target else "https://" +:+ target) ->
  UrlParse.urlparse (pylib env) u = Ok parsed ->
  netloc parsed <> "" ->
  func.header_value_ok
    (spec_location u (request_path req) (request_query req)) = true ->
  exists base slashes,
    u = base +:+ slashes
    /\ PyStr.all_chars (Ascii.eqb "/") slashes = true
    /\ last_char base <> Some "/"%char
    /\ fst (redirect_handler env req w)
       = Ok (redirect_response
               (base
                +:+ (if PyStr.truthy (request_path req)
                     then "/" +:+ request_path req else "")
                +:+ (if PyStr.truthy (request_query req)
                     then "?" +:+ request_query req else "")))
    /\ (request_path req = "" -> request_query req = "" ->
        fst (redirect_handler env req w) = Ok (redirect_response base)).
Proof.
  intros Hh Hr Hne H0 Hu H1 Hhost Hok.
  pose proof (location_rule env req w h target u parsed0 parsed
                Hh Hr Hne H0 Hu H1 Hhost) as Hloc.
  rewrite Hok in Hloc.
  destruct (rstrip_decompose (Ascii.eqb "/") u) as (t & Hsplit & Ht).
  exists (PyStr.rstrip (Ascii.eqb "/") u), t.
  split; [exact Hsplit|]. split; [exact Ht|]. split; [|split].
  - intros Hlast. apply rstrip_last in Hlast. discriminate.
  - exact Hloc.
  - intros Hp Hq. rewrite Hloc. unfold spec_location. rewrite Hp, Hq.
    cbn [PyStr.truthy]. rewrite !append_empty_r. reflexivity.
Qed.

Lemma location_has_no_slash_at_the_join_witness :
  exists base,
    fst (redirect_handler demo_env
           (get_request "https://slash.example.com/" None) cold_world)
    = Ok (redirect_response base)
    /\ last_char base <> Some "/"%char.
Proof.
  destruct (location_has_no_slash_at_the_join demo_env
              (get_request "https://slash.example.com/" None) cold_world
              "slash.example.com" "http://new.example.net/base//"
              "http://new.example.net/base//"
              {| scheme := "http"; netloc := "new.example.net";
                 path := "/base//"; params := ""; query := ""; fragment := "" |}
              {| scheme := "http"; netloc := "new.example.net";
                 path := "/base//"; params := ""; query := ""; fragment := "" |})
    as (base & slashes & _ & _ & Hlast & _ & H).
  1-8: try (vm_compute; reflexivity); try discriminate.
  exists base. split; [|exact Hlast]. apply H; reflexivity.
Defined.

(** X21. When the composed Location holds neither CR nor LF, the query
    handed on is the text after the first [?] of the request URL, exactly
    as it stands (further [?] and [#] included); a URL without [?], or
    with nothing after it, adds no [?] to the Location. *)
Theorem query_is_text_after_first_question_mark
    (env : Env) (req : func.HttpRequest) (w : World)
    (h target u : string) (parsed0 parsed : ParseResult) :
  request_hostname env req = Ok h ->
  fst (_get_redirect_url env h w) = Ok (Some target) ->
  target <> "" ->
  UrlParse.urlparse (pylib env) target = Ok parsed0 ->
  u = (if PyStr.truthy (scheme parsed0) then target else "https://" +:+ target) ->
  UrlParse.urlparse (pylib env) u = Ok parsed ->
  netloc parsed <> "" ->
  func.header_value_ok
    (spec_location u (request_path req) (request_query req)) = true ->
  (forall before q,
      func.url req = before +:+ String "?" q ->
      PyStr.contains "?" before = false ->
      fst (redirect_handler env req w)
      = Ok (redirect_response
              (PyStr.rstrip (Ascii.eqb "/") u
               +:+ (if PyStr.truthy (request_path req)
                    then "/" +:+ request_path req else "")
               +:+ (if PyStr.truthy q then "?" +:+ q else ""))))
  /\ (PyStr.contains "?" (func.url req) = false ->
      fst (redirect_handler env req w)
      = Ok (redirect_response
              (PyStr.rstrip (Ascii.eqb "/") u
               +:+ (if PyStr.truthy (request_path req)
                    then "/" +:+ request_path req else "")))).
Proof.
  intros Hh Hr Hne H0 Hu H1 Hhost Hok.
  pose proof (location_rule env req w h target u parsed0 parsed
                Hh Hr Hne H0 Hu H1 Hhost) as Hloc.
  rewrite Hok in Hloc.
  split.
  - intros before q Hurl Hc. rewrite Hloc. unfold spec_location, request_query.
    unfold PyStr.split_once. rewrite Hurl, (partition_append "?" before q Hc).
    reflexivity.
  - intros Hc. rewrite Hloc. unfold spec_location, request_query.
    unfold PyStr.split_once.
    assert (PyStr.partition "?" (func.url req) = None) as ->.
    { clear -Hc. induction (func.url req) as [|c s IH]; [reflexivity|].
      cbn [PyStr.contains] in Hc. apply orb_false_iff in Hc as [Hc Hs].
      cbn [PyStr.partition]. rewrite Hc, (IH Hs). reflexivity. }
    cbn [PyStr.truthy]. rewrite append_empty_r. reflexivity.
Qed.

Lemma query_is_text_after_first_question_mark_witness :
  fst (redirect_handler demo_env
         (get_request "https://old.example.com/s?q=a?b#c" (Some "s")) cold_world)
  = Ok (redirect_response "https://example.org/s?q=a?b#c").
Proof.
  destruct (query_is_text_after_first_question_mark demo_env
              (get_request "https://old.example.com/s?q=a?b#c" (Some "s"))
              cold_world "old.example.com" "example.org" "https://example.org"
              {| scheme := ""; netloc := ""; path := "example.org";
                 params := ""; query := ""; fragment := "" |}
              {| scheme := "https"; netloc := "example.org"; path := "";
                 params := ""; query := ""; fragment := "" |})
    as [H _].
  1-8: try (vm_compute; reflexivity); try discriminate.
  rewrite (H "https://old.example.com/s" "q=a?b#c");
    vm_compute; reflexivity.
Defined.

(** ** What the log and the cache tell apart *)

(** X22. A missing record and a failed store call get the same response,
    but they differ behind it: the first logs a warning and caches the
    negative result, the second logs the exception and leaves the cache as
    it was. *)
Theorem missing_record_and_failed_lookup_differ_in_log_and_cache
    (env_nf env_te : Env) (req : func.HttpRequest) (w : World) (h : string) :
  request_hostname env_nf req = Ok h ->
  request_hostname env_te req = Ok h ->
  needs_lookup env_nf w h ->
  needs_lookup env_te w h ->
  table_get_entity env_nf h "default" = ResourceNotFoundError ->
  table_get_entity env_te h "default" = OtherException ->
  fst (redirect_handler env_nf req w) = fst (redirect_handler env_te req w)
  /\ trace (snd (redirect_handler env_nf req w))
     = trace w ++ [EvClock (wall_clock w); EvGetEntity h "default";
                   EvLog WARNING false ("No redirect entry for host " +:+ h)]
  /\ trace (snd (redirect_handler env_te req w))
     = trace w ++ [EvClock (wall_clock w); EvGetEntity h "default";
                   EvLog ERROR true ("Failed to look up redirect for " +:+ h)]
  /\ _cache (snd (redirect_handler env_nf req w))
     = <[h := (None, wall_clock w)]> (_cache w)
  /\ _cache (snd (redirect_handler env_te req w)) = _cache w.
Proof.
  intros Hh Hh' Hn Hn' He He'.
  pose proof (resolve_lookup env_nf w h Hn) as Hr. rewrite He in Hr.
  pose proof (resolve_lookup env_te w h Hn') as Hr'. rewrite He' in Hr'.
  simpl lookup_value in Hr, Hr'.
  rewrite (handler_not_found env_nf req w _ h None Hh Hr) by auto.
  rewrite (handler_not_found env_te req w _ h None Hh' Hr') by auto.
  unfold after_lookup. rewrite He, He'. simpl. repeat split.
Qed.

Lemma missing_record_and_failed_lookup_differ_in_log_and_cache_witness :
  _cache (snd (redirect_handler bare_env
                 (get_request "https://broken.example.com/" None) cold_world))
  = {[ "broken.example.com" := (None, 1000) ]}
  /\ _cache (snd (redirect_handler demo_env
                    (get_request "https://broken.example.com/" None) cold_world))
     = ∅.
Proof.
  destruct (missing_record_and_failed_lookup_differ_in_log_and_cache
              bare_env demo_env
              (get_request "https://broken.example.com/" None) cold_world
              "broken.example.com") as (_ & _ & _ & H4 & H5).
  1-2: vm_compute; reflexivity.
  1-2: left; reflexivity.
  1-2: reflexivity.
  split; [rewrite H4; vm_compute; reflexivity | exact H5].
Defined.

(** ** A Location the response constructor rejects *)

(** X23. When the composed Location holds CR or LF (a route parameter or a
    query with a line break), the constructor of the 307 response raises
    [ValueError]: the handler returns no response, although the redirect
    has been logged by then and the cache holds what the resolver left. *)
Theorem newline_in_location_raises
    (env : Env) (req : func.HttpRequest) (w : World)
    (h target u : string) (parsed0 parsed : ParseResult) :
  request_hostname env req = Ok h ->
  fst (_get_redirect_url env h w) = Ok (Some target) ->
  target <> "" ->
  UrlParse.urlparse (pylib env) target = Ok parsed0 ->
  u = (if PyStr.truthy (scheme parsed0) then target else "https://" +:+ target) ->
  UrlParse.urlparse (pylib env) u = Ok parsed ->
  netloc parsed <> "" ->
  func.header_value_ok
    (spec_location u (request_path req) (request_query req)) = false ->
  fst (redirect_handler env req w) = Raise ValueError
  /\ trace (snd (redirect_handler env req w))
     = trace (snd (_get_redirect_url env h w))
       ++ [EvLog INFO false
             ("Redirecting " +:+ func.method req +:+ " " +:+ func.url req
              +:+ " -> "
              +:+ spec_location u (request_path req) (request_query req)
              +:+ " (UA: "
              +:+ default "Unknown" (func.headers req !! "user-agent")
              +:+ ")")]
  /\ _cache (snd (redirect_handler env req w))
     = _cache (snd (_get_redirect_url env h w)).
Proof.
  intros Hh Hr Hne H0 Hu H1 Hhost Hbad.
  rewrite (handler_found env req w _ h target u parsed Hh
             (resolver_result_world env w h _ Hr) Hne
             (normalize_target_intro _ _ _ _ _ H0 Hu H1)).
  rewrite (truthy_true _ Hhost). cbv zeta. cbn [fst snd].
  rewrite new_redirect_response, Hbad. repeat split.
Qed.

Lemma newline_in_location_raises_witness :
  fst (redirect_handler demo_env
         (get_request "https://old.example.com/a%0D%0Ab"
            (Some (String "a" (String "013" (String "010" "b")))))
         cold_world)
  = Raise ValueError
  /\ _cache (snd (redirect_handler demo_env
                    (get_request "https://old.example.com/a%0D%0Ab"
                       (Some (String "a" (String "013" (String "010" "b")))))
                    cold_world))
     = {[ "old.example.com" := (Some "example.org", 1000) ]}.
Proof.
  destruct (newline_in_location_raises demo_env
              (get_request "https://old.example.com/a%0D%0Ab"
                 (Some (String "a" (String "013" (String "010" "b")))))
              cold_world "old.example.com" "example.org" "https://example.org"
              {| scheme := ""; netloc := ""; path := "example.org";
                 params := ""; query := ""; fragment := "" |}
              {| scheme := "https"; netloc := "example.org"; path := "";
                 params := ""; query := ""; fragment := "" |})
    as (H1 & _ & H3).
  1-8: try (vm_compute; reflexivity); try discriminate.
  split; [exact H1|]. rewrite H3. vm_compute. reflexivity.
Defined.
